(** * Verification of the PredictKube and GCP storage scalers (pkg/scalers)

    Shallow embedding of [predictkube_scaler.go] and [gcp_storage_scaler.go].

    Modelling conventions:
    - Go [error] values are [GoError]; a Go [(T, error)] pair whose two
      components are both meaningful is a Rocq pair [T * option GoError];
      a function returning [(nil, err)] or [(v, nil)] is a [result].
    - [time.Duration] is an int64 count of nanoseconds, here a [Z].
    - Prometheus sample values and observation values are [float64]; they
      are modelled as exact rationals [Q] (every finite float64 is one);
      NaN and infinities are outside the model.  The Go conversion
      [int64(f)] truncates toward zero: [Qtrunc].
    - Calls into other packages (Prometheus API, gRPC engine, storage
      iterator, validators, duration parser) are inputs of the model:
      either fields of an environment record or [Variable]s of a Section. *)

From Stdlib Require Import String Ascii ZArith QArith List Lia.
From stdpp Require Import base gmap strings.
Import ListNotations.
Open Scope string_scope.

(* ------------------------------------------------------------------ *)
(** ** Errors and results *)

Inductive GoError :=
| ErrString (msg : string).

Definition Error (e : GoError) : string :=
  match e with ErrString m => m end.

Inductive result (A : Type) :=
| Ok (a : A)
| Err (e : GoError).
Arguments Ok {A} a.
Arguments Err {A} e.

(** [strings.Contains] *)
Definition Contains (s sub : string) : bool :=
  match String.index 0 sub s with Some _ => true | None => false end.

(** Go's [int64(f)] for a finite float in range: truncation toward zero. *)
Definition Qtrunc (q : Q) : Z := Z.quot (Qnum q) (Zpos (Qden q)).

(** Two's-complement wrap-around of an integer to int64. *)
Definition wrapInt64 (z : Z) : Z := ((z + 2 ^ 63) mod 2 ^ 64 - 2 ^ 63)%Z.

(** [float64(i)] of an int64: rounded to 53 significant bits, ties to
    even; the value of the float, an integer, is returned. *)
Definition float64OfInt (z : Z) : Z :=
  let a := Z.abs z in
  if (a <? 2 ^ 53)%Z then z else
  let e := (Z.log2 a - 52)%Z in
  let u := (2 ^ e)%Z in
  let q := (a / u)%Z in
  let r := (a mod u)%Z in
  let h := (2 ^ (e - 1))%Z in
  let q' := if ((h <? r)%Z || ((r =? h)%Z && Z.odd q))%bool then (q + 1)%Z else q in
  (Z.sgn z * (q' * u))%Z.

(** CVTTSD2SQ, the amd64 float-to-int64 truncation of an integral float:
    out-of-range values give the "integer indefinite" -2^63. *)
Definition cvttsd2sq (f : Z) : Z :=
  if ((- 2 ^ 63 <=? f)%Z && (f <? 2 ^ 63)%Z)%bool then f else (- 2 ^ 63)%Z.

(** [uint64(f)] for an integral float as the Go compiler lowers it on amd64
    (the Go spec leaves out-of-range conversions implementation-defined):
    [uint64(int64(f))] below 2^63, else [uint64(int64(f - 2^63)) | 1<<63]. *)
Definition uint64OfFloat (f : Z) : Z :=
  if (f <? 2 ^ 63)%Z then (cvttsd2sq f mod 2 ^ 64)%Z
  else Z.lor (cvttsd2sq (f - 2 ^ 63) mod 2 ^ 64) (2 ^ 63).

(** Go's [math.Round]: half away from zero. *)
Definition goRound (q : Q) : Z :=
  let n := Qnum q in let d := Zpos (Qden q) in
  if (0 <=? n)%Z then ((2 * n + d) / (2 * d))%Z
  else (- ((- 2 * n + d) / (2 * d)))%Z.

(* ------------------------------------------------------------------ *)
(** ** Prometheus result values (prometheus/common/model) *)

(** [model.Time]: milliseconds since the epoch. *)
Abbreviation ModelTime := Z.

Record SamplePair := { sp_Timestamp : ModelTime; sp_Value : Q }.
Record Sample := { s_Timestamp : ModelTime; s_Value : Q }.
Record SampleStream := { ss_Metric : list (string * string);
                         ss_Values : list SamplePair }.
Record ModelScalar := { sc_Value : Q; sc_Timestamp : ModelTime }.
Record ModelString := { str_Value : string; str_Timestamp : ModelTime }.

(** [model.Value] by its [Type()]: [ValVector], [ValMatrix], [ValScalar],
    [ValString]; every other value type (e.g. [ValNone]) is [VOther]. *)
Inductive Value :=
| VVector (v : list Sample)
| VMatrix (m : list SampleStream)
| VScalar (s : ModelScalar)
| VString (s : ModelString)
| VOther.

Definition invalidMetricTypeErr := "metric type is invalid".

(** [v1.Range] *)
Record Range := { r_Start : Z; r_End : Z; r_Step : Z }.

(* ------------------------------------------------------------------ *)
(** ** The PredictKube scaler *)

Definition second : Z := 1000000000.
Definition minute : Z := 60 * second.
Definition defaultStep : Z := 5 * minute.

Record predictKubeMetadata := {
  predictHorizon : Z;
  historyTimeWindow : Z;
  stepDuration : Z;
  apiKey : string;
  prometheusAddress : string;
  query : string;
  threshold : Z;
  scalerIndex : Z
}.

Definition set_stepDuration (m : predictKubeMetadata) (d : Z) :=
  {| predictHorizon := predictHorizon m; historyTimeWindow := historyTimeWindow m;
     stepDuration := d; apiKey := apiKey m; prometheusAddress := prometheusAddress m;
     query := query m; threshold := threshold m; scalerIndex := scalerIndex m |}.

(** [external_metrics.ExternalMetricValue]; the quantity is an integer. *)
Record ExternalMetricValue := {
  emv_MetricName : string; emv_Value : Z; emv_Timestamp : Z }.

Section PredictKube.

(** Opaque timestamp type of the protobuf [Timestamp] and the conversion
    [tc.AdaptTimeToPbTimestamp(tc.TimeToTimePtr(t.Time()))] of
    predictkube-libs, which may fail. *)
Variable PbTimestamp : Type.
Variable AdaptTimeToPbTimestamp : ModelTime -> result PbTimestamp.
(** [strconv.ParseFloat(s, 64)] *)
Variable ParseFloat : string -> result Q.
(** [GenerateMetricNameWithIndex(i, kedautil.NormalizeString(...))] *)
Variable predictKubeMetricName : Z -> string.

(** [commonproto.Item] *)
Record Item := { it_Timestamp : PbTimestamp; it_Value : Q; it_MetricName : string }.

(** An observation carries the converted timestamp, the value and the name
    of its sample. *)
Definition keeps (name : string) (sp : SamplePair) (it : Item) : Prop :=
  AdaptTimeToPbTimestamp (sp_Timestamp sp) = Ok (it_Timestamp it) /\
  it_Value it = sp_Value sp /\ it_MetricName it = name.

(** The environment of one call: the clock, the Prometheus range query,
    the ML engine's [GetPredictMetric] and the gRPC health [Check]. *)
Record Env := {
  now : Z;
  QueryRange : string -> Range -> result Value;
  GetPredictMetric : Z -> list Item -> result Z;
  HealthCheck : option unit * option GoError
}.

(** [status.Code(err)] of grpc, rendered with [%v] *)
Variable grpcStatusCode : GoError -> string.

(** *** parsePrometheusResult *)

Section Parse.
Variable metricName : string.

Fixpoint vectorLoop (res : list Sample) (out : list Item) : result (list Item) :=
  match res with
  | [] => Ok out
  | val :: rest =>
      match AdaptTimeToPbTimestamp (s_Timestamp val) with
      | Err e => Err e
      | Ok t => vectorLoop rest (out ++ [{| it_Timestamp := t; it_Value := s_Value val;
                                            it_MetricName := metricName |}])
      end
  end.

Fixpoint valuesLoop (vs : list SamplePair) (out : list Item) : result (list Item) :=
  match vs with
  | [] => Ok out
  | v :: rest =>
      match AdaptTimeToPbTimestamp (sp_Timestamp v) with
      | Err e => Err e
      | Ok t => valuesLoop rest (out ++ [{| it_Timestamp := t; it_Value := sp_Value v;
                                            it_MetricName := metricName |}])
      end
  end.

Fixpoint matrixLoop (res : list SampleStream) (out : list Item) : result (list Item) :=
  match res with
  | [] => Ok out
  | val :: rest =>
      match valuesLoop (ss_Values val) out with
      | Err e => Err e
      | Ok out' => matrixLoop rest out'
      end
  end.

End Parse.

Definition parsePrometheusResult (m : predictKubeMetadata) (v : Value)
  : result (list Item) :=
  let metricName := predictKubeMetricName (scalerIndex m) in
  match v with
  | VVector res => vectorLoop metricName res []
  | VMatrix res => matrixLoop metricName res []
  | VScalar res =>
      match AdaptTimeToPbTimestamp (sc_Timestamp res) with
      | Err e => Err e
      | Ok t => Ok [{| it_Timestamp := t; it_Value := sc_Value res;
                      it_MetricName := metricName |}]
      end
  | VString res =>
      match AdaptTimeToPbTimestamp (str_Timestamp res) with
      | Err e => Err e
      | Ok t =>
          match ParseFloat (str_Value res) with
          | Err e => Err e
          | Ok f => Ok [{| it_Timestamp := t; it_Value := f;
                          it_MetricName := metricName |}]
          end
      end
  | VOther => Err (ErrString invalidMetricTypeErr)
  end.

(** *** doQuery: fills the default step lazily (mutating the metadata) *)
Definition doQuery (env : Env) (m0 : predictKubeMetadata)
  : predictKubeMetadata * result (list Item) :=
  let m := if (stepDuration m0 =? 0)%Z then set_stepDuration m0 defaultStep else m0 in
  let r := {| r_Start := now env - historyTimeWindow m; r_End := now env;
              r_Step := stepDuration m |} in
  match QueryRange env (query m) r with
  | Err e => (m, Err e)
  | Ok val => (m, parsePrometheusResult m val)
  end.

(** [int64(results[len(results)-1].Value)], or 0 when there is no result. *)
Definition lastObserved (results : list Item) : Z :=
  match rev results with
  | [] => 0
  | r :: _ => Qtrunc (it_Value r)
  end.

(** [uint64(math.Round(float64(predictHorizon / stepDuration)))]: the
    division of two [time.Duration]s is int64 division (truncating, with
    wrap-around); [float64] rounds the quotient to 53 significant bits;
    [math.Round] leaves the integral float as it is; [uint64] of the float
    is lowered as on amd64. The step is never 0 here: [doQuery] has just
    replaced a zero step by the default. *)
Definition forecastHorizon (m : predictKubeMetadata) : Z :=
  uint64OfFloat (goRound (inject_Z (float64OfInt
    (wrapInt64 (Z.quot (predictHorizon m) (stepDuration m)))))).

(** The closure [func(x, y int64) int64]. *)
Definition maxClosure (x y : Z) : Z := if (x <? y)%Z then y else x.

(** *** doPredictRequest *)
Definition doPredictRequest (env : Env) (m0 : predictKubeMetadata)
  : predictKubeMetadata * result Z :=
  match doQuery env m0 with
  | (m, Err e) => (m, Err e)
  | (m, Ok results) =>
      match GetPredictMetric env (forecastHorizon m) results with
      | Err e => (m, Err e)
      | Ok x => let y := lastObserved results in (m, Ok (maxClosure x y))
      end
  end.

Definition emptyResponseErr := ErrString "empty response after predict request".

(** *** GetMetrics *)
Definition GetMetrics (env : Env) (m0 : predictKubeMetadata) (metricName : string)
  : predictKubeMetadata * (list ExternalMetricValue * option GoError) :=
  match doPredictRequest env m0 with
  | (m, Err e) => (m, ([], Some e))
  | (m, Ok value) =>
      if (value =? 0)%Z then (m, ([], Some emptyResponseErr))
      else (m, ([{| emv_MetricName := metricName; emv_Value := value;
                    emv_Timestamp := now env |}], None))
  end.

(** *** IsActive *)
Definition IsActive (env : Env) (m0 : predictKubeMetadata)
  : predictKubeMetadata * (bool * option GoError) :=
  match doQuery env m0 with
  | (m, Err e) => (m, (false, Some e))
  | (m, Ok results) =>
      match HealthCheck env with
      | (None, _) =>
          (m, (Nat.ltb 0 (length results),
               Some (ErrString "can't connect grpc server: empty server response, code: Unknown")))
      | (Some _, Some err) =>
          (m, (Nat.ltb 0 (length results),
               Some (ErrString ("can't connect grpc server: " ++ Error err ++
                                ", code: " ++ grpcStatusCode err))))
      | (Some _, None) =>
          let y := lastObserved results in (m, (Z.ltb 0 y, None))
      end
  end.

End PredictKube.

(* ------------------------------------------------------------------ *)
(** ** strconv.ParseInt(s, 10, 64) and strconv.Atoi (64-bit [int]) *)

Definition ErrSyntax := "invalid syntax".
Definition ErrRange := "value out of range".

(** [strconv.Quote], exact for printable ASCII without quote or backslash. *)
Definition dq : string := String (ascii_of_nat 34) EmptyString.
Definition Quote (s : string) : string := dq ++ s ++ dq.

(** [NumError.Error] (pointer receiver) *)
Definition NumError (fn num reason : string) : GoError :=
  ErrString ("strconv." ++ fn ++ ": parsing " ++ Quote num ++ ": " ++ reason).

Definition digitVal (c : ascii) : option Z :=
  let n := nat_of_ascii c in
  if (48 <=? n)%nat && (n <=? 57)%nat then Some (Z.of_nat (n - 48)) else None.

(** Decimal digits, at least one, no underscores (base 10). *)
Fixpoint digitsLoop (s : string) (acc : Z) : option Z :=
  match s with
  | EmptyString => Some acc
  | String c rest =>
      match digitVal c with
      | Some d => digitsLoop rest (acc * 10 + d)
      | None => None
      end
  end.

Definition parseUint10 (s : string) : option Z :=
  match s with EmptyString => None | _ => digitsLoop s 0 end.

Definition int64Bound : Z := 2 ^ 63.

(** [strconv.ParseInt(s, 10, 64)], reporting errors under function name [fn]
    ([Atoi] reports [Func = "Atoi"] for the same checks). *)
Definition parseInt64As (fn s0 : string) : result Z :=
  let '(neg, s) :=
    match s0 with
    | String c rest =>
        if Ascii.eqb c "+"%char then (false, rest)
        else if Ascii.eqb c "-"%char then (true, rest) else (false, s0)
    | EmptyString => (false, s0)
    end in
  match s0 with
  | EmptyString => Err (NumError fn s0 ErrSyntax)
  | _ =>
      match parseUint10 s with
      | None => Err (NumError fn s0 ErrSyntax)
      | Some un =>
          if neg then
            (if (int64Bound <? un)%Z then Err (NumError fn s0 ErrRange) else Ok (- un)%Z)
          else
            (if (int64Bound <=? un)%Z then Err (NumError fn s0 ErrRange) else Ok un)
      end
  end.

Definition ParseInt (s : string) : result Z := parseInt64As "ParseInt" s.
Definition Atoi (s : string) : result Z := parseInt64As "Atoi" s.

(* ------------------------------------------------------------------ *)
(** ** Scaler configuration *)

Record ScalerConfig := {
  TriggerMetadata : gmap string string;
  AuthParams : gmap string string;
  ScalerIndex : Z
}.

(** Connection attempts made by a constructor, in order. *)
Inductive Event :=
| EvPrometheusConn   (* initPredictKubePrometheusConn: client + ping *)
| EvGrpcDial         (* setupClientConn: grpc.Dial *)
| EvStorageClient.   (* storage.NewClient *)

(** fmt's [%3s]: left-pad to width 3 with spaces. *)
Definition pad3 (s : string) : string :=
  match String.length s with
  | 0 => "   " | 1 => "  " ++ s | 2 => " " ++ s | _ => s
  end.

Definition wrapErr (prefix : string) (e : GoError) : GoError :=
  ErrString (prefix ++ Error e).
Definition wrapErr3 (prefix : string) (e : GoError) : GoError :=
  ErrString (prefix ++ pad3 (Error e)).

(* ------------------------------------------------------------------ *)
(** ** parsePredictKubeMetadata and NewPredictKubeScaler *)

Definition isOk {A} (r : result A) : bool :=
  match r with Ok _ => true | Err _ => false end.

(** A check of [parsePredictKubeMetadata]: the key, whether it is read
    from [AuthParams] (rather than [TriggerMetadata]), the test a present
    value must pass, the error returned when the key is absent, and the
    error returned for a present value (none when it passes). *)
Record FieldRule := {
  fr_key : string; fr_auth : bool; fr_ok : string -> bool; fr_missing : string;
  fr_invalid : string -> option GoError }.

Definition ruleSource (config : ScalerConfig) (r : FieldRule) : gmap string string :=
  if fr_auth r then AuthParams config else TriggerMetadata config.

Definition ruleHolds (config : ScalerConfig) (r : FieldRule) : bool :=
  match ruleSource config r !! fr_key r with
  | Some v => fr_ok r v
  | None => false
  end.

(** The error a check reports on a configuration, if it fails. *)
Definition ruleCheck (config : ScalerConfig) (r : FieldRule) : option GoError :=
  match ruleSource config r !! fr_key r with
  | Some v => fr_invalid r v
  | None => Some (ErrString (fr_missing r))
  end.

(** The error of the first failing check of a list, in order. *)
Fixpoint firstRuleError (config : ScalerConfig) (rs : list FieldRule) : option GoError :=
  match rs with
  | [] => None
  | r :: rest =>
      match ruleCheck config r with
      | Some e => Some e
      | None => firstRuleError config rest
      end
  end.

Section PredictKubeCtor.

(** go-playground validator: [validate.Var(val, "url")], [validate.Var(val, "jwt")] *)
Variable validURL validJWT : string -> bool.
(** [str2duration.ParseDuration] *)
Variable ParseDuration : string -> result Z.
(** [authentication.GetAuthConfigs]; its result type is abstract. *)
Variable AuthMeta : Type.
Variable GetAuthConfigs : gmap string string -> gmap string string -> result AuthMeta.
(** [GetMetricTargetType(config)] *)
Variable MetricTargetType : Type.
Variable GetMetricTargetType : ScalerConfig -> result MetricTargetType.
(** Outcomes of [initPredictKubePrometheusConn] and [setupClientConn]. *)
Variable initPrometheusConn : predictKubeMetadata -> result unit.
Variable setupClientConn : predictKubeMetadata -> result unit.

Definition parsePredictKubeMetadata (config : ScalerConfig)
  : result (predictKubeMetadata * AuthMeta) :=
  let tm := TriggerMetadata config in
  match tm !! "query" with
  | None => Err (ErrString "no query given")
  | Some q =>
  if String.eqb q "" then Err (ErrString "no query given") else
  match tm !! "prometheusAddress" with
  | None => Err (ErrString "no prometheusAddress given")
  | Some addr =>
  if negb (validURL addr) then Err (ErrString "invalid prometheusAddress") else
  match tm !! "predictHorizon" with
  | None => Err (ErrString "no predictHorizon given")
  | Some ph =>
  match ParseDuration ph with
  | Err e => Err (wrapErr "predictHorizon parsing error " e)
  | Ok predictHorizon' =>
  match tm !! "queryStep" with
  | None => Err (ErrString "no queryStep given")
  | Some qs =>
  match ParseDuration qs with
  | Err e => Err (wrapErr "queryStep parsing error " e)
  | Ok step =>
  match tm !! "historyTimeWindow" with
  | None => Err (ErrString "no historyTimeWindow given")
  | Some hw =>
  match ParseDuration hw with
  | Err e => Err (wrapErr "historyTimeWindow parsing error " e)
  | Ok window =>
  match tm !! "threshold" with
  | None => Err (ErrString "no threshold given")
  | Some th =>
  match ParseInt th with
  | Err e => Err (wrapErr "threshold parsing error " e)
  | Ok threshold' =>
  match AuthParams config !! "apiKey" with
  | None => Err (ErrString "no api key given")
  | Some key =>
  if negb (validJWT key) then Err (ErrString "invalid apiKey") else
  match GetAuthConfigs tm (AuthParams config) with
  | Err e => Err e
  | Ok auth =>
      Ok ({| predictHorizon := predictHorizon'; historyTimeWindow := window;
             stepDuration := step; apiKey := key; prometheusAddress := addr;
             query := q; threshold := threshold'; scalerIndex := ScalerIndex config |},
          auth)
  end end end end end end end end end end end end.

Record PredictKubeScaler := {
  pks_metricType : MetricTargetType;
  pks_metadata : predictKubeMetadata;
  pks_prometheusAuth : AuthMeta
}.

(** Returns the scaler or error, and the connection attempts made. *)
Definition NewPredictKubeScaler (config : ScalerConfig)
  : result PredictKubeScaler * list Event :=
  match GetMetricTargetType config with
  | Err e => (Err (wrapErr "error getting scaler metric type: " e), [])
  | Ok mt =>
  match parsePredictKubeMetadata config with
  | Err e => (Err (wrapErr3 "error parsing PredictKube metadata: " e), [])
  | Ok (meta, auth) =>
  match initPrometheusConn meta with
  | Err e => (Err (wrapErr3 "error create Prometheus client and API objects: " e),
              [EvPrometheusConn])
  | Ok _ =>
  match setupClientConn meta with
  | Err e => (Err (wrapErr3 "error init GRPC client: " e), [EvPrometheusConn; EvGrpcDial])
  | Ok _ => (Ok {| pks_metricType := mt; pks_metadata := meta; pks_prometheusAuth := auth |},
             [EvPrometheusConn; EvGrpcDial])
  end end end end.

(** The required keys of [parsePredictKubeMetadata], in the order the
    function checks them. *)
Definition predictKubeRules : list FieldRule :=
  [ {| fr_key := "query"; fr_auth := false;
       fr_ok := fun v => negb (String.eqb v ""); fr_missing := "no query given";
       fr_invalid := fun v => if String.eqb v "" then Some (ErrString "no query given")
                              else None |};
    {| fr_key := "prometheusAddress"; fr_auth := false;
       fr_ok := validURL; fr_missing := "no prometheusAddress given";
       fr_invalid := fun v => if validURL v then None
                              else Some (ErrString "invalid prometheusAddress") |};
    {| fr_key := "predictHorizon"; fr_auth := false;
       fr_ok := fun v => isOk (ParseDuration v); fr_missing := "no predictHorizon given";
       fr_invalid := fun v => match ParseDuration v with
                              | Err e => Some (wrapErr "predictHorizon parsing error " e)
                              | Ok _ => None end |};
    {| fr_key := "queryStep"; fr_auth := false;
       fr_ok := fun v => isOk (ParseDuration v); fr_missing := "no queryStep given";
       fr_invalid := fun v => match ParseDuration v with
                              | Err e => Some (wrapErr "queryStep parsing error " e)
                              | Ok _ => None end |};
    {| fr_key := "historyTimeWindow"; fr_auth := false;
       fr_ok := fun v => isOk (ParseDuration v); fr_missing := "no historyTimeWindow given";
       fr_invalid := fun v => match ParseDuration v with
                              | Err e => Some (wrapErr "historyTimeWindow parsing error " e)
                              | Ok _ => None end |};
    {| fr_key := "threshold"; fr_auth := false;
       fr_ok := fun v => isOk (ParseInt v); fr_missing := "no threshold given";
       fr_invalid := fun v => match ParseInt v with
                              | Err e => Some (wrapErr "threshold parsing error " e)
                              | Ok _ => None end |};
    {| fr_key := "apiKey"; fr_auth := true;
       fr_ok := validJWT; fr_missing := "no api key given";
       fr_invalid := fun v => if validJWT v then None
                              else Some (ErrString "invalid apiKey") |} ].

End PredictKubeCtor.

(* ------------------------------------------------------------------ *)
(** ** The GCP storage scaler *)

Definition defaultTargetObjectCount : Z := 100.
Definition defaultMaxBucketItemsToScan : Z := 1000.

(** One answer of [it.Next()] of the bucket's object iterator: an object,
    the sentinel [iterator.Done], or another error. *)
Inductive NextResult :=
| NItem (name : string)
| NDone
| NErr (e : GoError).

(** The iterator as the list of answers still to come; once the list is
    exhausted [Next] keeps answering [iterator.Done]. *)
Definition ObjectIterator := list NextResult.

Definition Next (it : ObjectIterator) : NextResult * ObjectIterator :=
  match it with
  | [] => (NDone, [])
  | r :: rest => (r, rest)
  end.

(** A bucket holding the objects [names]: its listing yields them, then Done. *)
Definition bucketListing (names : list string) : ObjectIterator := map NItem names.

(** Attribute names accepted by [storage.Query.SetAttrSelection]
    (the fields of [storage.ObjectAttrs]). *)
Definition objectAttrNames : list string :=
  ["Bucket"; "Name"; "ContentType"; "ContentLanguage"; "CacheControl";
   "EventBasedHold"; "TemporaryHold"; "RetentionExpirationTime"; "ACL";
   "PredefinedACL"; "Owner"; "Size"; "ContentEncoding"; "ContentDisposition";
   "MD5"; "CRC32C"; "MediaLink"; "Metadata"; "Generation"; "Metageneration";
   "StorageClass"; "Created"; "Deleted"; "Updated"; "CustomerKeySHA256";
   "KMSKeyName"; "Prefix"; "Etag"; "CustomTime"].

Fixpoint SetAttrSelection (attrs : list string) : option GoError :=
  match attrs with
  | [] => None
  | a :: rest =>
      if existsb (String.eqb a) objectAttrNames then SetAttrSelection rest
      else Some (ErrString ("storage: attr " ++ a ++ " is not valid"))
  end.

Definition bucketNotExist := "bucket doesn't exist".

(** The loop [for count < int64(maxCount) { ... }] of [getItemCount]; it
    returns [(count, err)] and the iterator left unread. *)
Fixpoint countLoop (it : ObjectIterator) (count maxCount : Z)
  : (Z * option GoError) * ObjectIterator :=
  if (count <? maxCount)%Z then
    match it with
    | [] => ((count, None), [])                       (* Next = iterator.Done *)
    | NDone :: rest => ((count, None), rest)
    | NErr e :: rest =>
        if Contains (Error e) bucketNotExist then ((0%Z, None), rest)
        else ((count, Some e), rest)
    | NItem _ :: rest => countLoop rest (count + 1) maxCount
    end
  else ((count, None), it).

Definition getItemCount (it : ObjectIterator) (maxCount : Z)
  : (Z * option GoError) * ObjectIterator :=
  match SetAttrSelection ["Name"] with
  | Some e => ((0%Z, Some e), it)
  | None => countLoop it 0 maxCount
  end.

Section Gcs.

Variable gcpAuthorizationMetadata : Type.
(** [getGcpAuthorization(config, config.ResolvedEnv)] *)
Variable getGcpAuthorization : ScalerConfig -> result gcpAuthorizationMetadata.
(** [GenerateMetricNameWithIndex] and [kedautil.NormalizeString] *)
Variable GenerateMetricNameWithIndex : Z -> string -> string.
Variable NormalizeString : string -> string.
Variable MetricTargetType : Type.
Variable GetMetricTargetType : ScalerConfig -> result MetricTargetType.
(** Outcome of [storage.NewClient] for the chosen credentials. *)
Variable NewClient : gcpAuthorizationMetadata -> result unit.

Record gcsMetadata := {
  bucketName : string;
  gcpAuthorization : gcpAuthorizationMetadata;
  maxBucketItemsToScan : Z;
  metricName : string;
  targetObjectCount : Z
}.

Definition parseGcsMetadata (config : ScalerConfig) : result gcsMetadata :=
  let tm := TriggerMetadata config in
  match tm !! "bucketName" with
  | None => Err (ErrString "no bucket name given")
  | Some bn =>
  if String.eqb bn "" then Err (ErrString "no bucket name given") else
  match match tm !! "targetObjectCount" with
        | None => Ok defaultTargetObjectCount
        | Some v => match ParseInt v with
                    | Err e => Err (wrapErr "error parsing targetObjectCount: " e)
                    | Ok n => Ok n
                    end
        end with
  | Err e => Err e
  | Ok target =>
  match match tm !! "maxBucketItemsToScan" with
        | None => Ok defaultMaxBucketItemsToScan
        | Some v => match Atoi v with
                    | Err e => Err (wrapErr "error parsing maxBucketItemsToScan: " e)
                    | Ok n => Ok n
                    end
        end with
  | Err e => Err e
  | Ok maxScan =>
  match getGcpAuthorization config with
  | Err e => Err e
  | Ok auth =>
      Ok {| bucketName := bn; gcpAuthorization := auth; maxBucketItemsToScan := maxScan;
            metricName := GenerateMetricNameWithIndex (ScalerIndex config)
                            (NormalizeString ("gcp-storage-" ++ bn));
            targetObjectCount := target |}
  end end end end.

Record gcsScaler := { gs_metricType : MetricTargetType; gs_metadata : gcsMetadata }.

Definition NewGcsScaler (config : ScalerConfig) : result gcsScaler * list Event :=
  match GetMetricTargetType config with
  | Err e => (Err (wrapErr "error getting scaler metric type: " e), [])
  | Ok mt =>
  match parseGcsMetadata config with
  | Err e => (Err (wrapErr "error parsing GCP storage metadata: " e), [])
  | Ok meta =>
  match NewClient (gcpAuthorization meta) with
  | Err e => (Err (wrapErr "storage.NewClient: " e), [EvStorageClient])
  | Ok _ => (Ok {| gs_metricType := mt; gs_metadata := meta |}, [EvStorageClient])
  end end end.

End Gcs.

(** [gcsScaler.IsActive] on the bucket's object iterator. *)
Definition gcsIsActive {Auth MT} (s : gcsScaler Auth MT) (it : ObjectIterator)
  : bool * option GoError :=
  match getItemCount it 1 with
  | ((_, Some e), _) => (false, Some e)
  | ((items, None), _) => ((0 <? items)%Z, None)
  end.

(** [gcsScaler.GetMetrics] *)
Definition gcsGetMetrics {Auth MT} (s : gcsScaler Auth MT) (it : ObjectIterator)
    (metricName' : string) (now' : Z) : list ExternalMetricValue * option GoError :=
  match getItemCount it (maxBucketItemsToScan _ (gs_metadata _ _ s)) with
  | ((_, Some e), _) => ([], Some e)
  | ((items, None), _) =>
      ([{| emv_MetricName := metricName'; emv_Value := items; emv_Timestamp := now' |}], None)
  end.

(* ------------------------------------------------------------------ *)
(** ** Concrete instances used to evaluate the model *)

(** Timestamps kept as milliseconds; every conversion succeeds. *)
Definition exAdapt (t : ModelTime) : result Z := Ok t.
(** A conversion that refuses times before the epoch. *)
Definition exAdaptNonNeg (t : ModelTime) : result Z :=
  if (t <? 0)%Z then Err (ErrString "timestamp before 0001-01-01") else Ok t.
Definition exParseFloat (s : string) : result Q :=
  if String.eqb s "1.5" then Ok (3 # 2) else Err (NumError "ParseFloat" s ErrSyntax).
Definition exName (i : Z) : string := "s0-predictkube-predictkube_metric".
Definition exCode (e : GoError) : string := "Unavailable".

Definition exMeta (ph step : Z) : predictKubeMetadata :=
  {| predictHorizon := ph; historyTimeWindow := 60 * minute; stepDuration := step;
     apiKey := "k"; prometheusAddress := "http://localhost:9090"; query := "up";
     threshold := 2000; scalerIndex := 0 |}.

Definition exEnv (v : Value) (pred : Z -> list (Item Z) -> result Z)
    (h : option unit * option GoError) : Env Z :=
  {| now := 0; QueryRange := fun _ _ => Ok v; GetPredictMetric := pred; HealthCheck := h |}.

Definition exGcsMeta (maxScan : Z) : gcsMetadata unit :=
  {| bucketName := "b"; gcpAuthorization := tt; maxBucketItemsToScan := maxScan;
     metricName := "s0-gcp-storage-b"; targetObjectCount := 100 |}.
Definition exGcs (maxScan : Z) : gcsScaler unit unit :=
  {| gs_metricType := tt; gs_metadata := exGcsMeta maxScan |}.

(** Stand-ins for the validators, parsers and connections of the
    constructors: URLs must start with "http", durations are non-empty,
    every other step succeeds. *)
Definition exValidURL (s : string) : bool := String.prefix "http" s.
Definition exValidJWT (s : string) : bool := true.
Definition exParseDuration (s : string) : result Z :=
  if String.eqb s "" then Err (ErrString "time: invalid duration") else Ok minute.
Definition exGetAuthConfigs (tm ap : gmap string string) : result unit := Ok tt.
Definition exGetMetricTargetType (c : ScalerConfig) : result unit := Ok tt.
Definition exConn (m : predictKubeMetadata) : result unit := Ok tt.
Definition exGcpAuth (c : ScalerConfig) : result unit := Ok tt.
Definition exGenerateName (i : Z) (s : string) : string := "s0-" ++ s.
Definition exNormalize (s : string) : string := s.
Definition exNewClient (a : unit) : result unit := Ok tt.

Definition exConfig (tm ap : list (string * string)) : ScalerConfig :=
  {| TriggerMetadata := list_to_map tm; AuthParams := list_to_map ap; ScalerIndex := 0 |}.

Definition exNewPK (c : ScalerConfig) :=
  NewPredictKubeScaler exValidURL exValidJWT exParseDuration unit exGetAuthConfigs unit
    exGetMetricTargetType exConn exConn c.
Definition exParsePK (c : ScalerConfig) :=
  parsePredictKubeMetadata exValidURL exValidJWT exParseDuration unit exGetAuthConfigs c.
Definition exNewGcs (c : ScalerConfig) :=
  NewGcsScaler unit exGcpAuth exGenerateName exNormalize unit exGetMetricTargetType
    exNewClient c.
Definition exParseGcs (c : ScalerConfig) :=
  parseGcsMetadata unit exGcpAuth exGenerateName exNormalize c.

Definition exItems : list (Item Z) :=
  [{| it_Timestamp := 1%Z; it_Value := 5 # 1; it_MetricName := exName 0 |};
   {| it_Timestamp := 2%Z; it_Value := 9 # 1; it_MetricName := exName 0 |}].

Definition exVector : Value :=
  VVector [{| s_Timestamp := 1; s_Value := 5 # 1 |}; {| s_Timestamp := 2; s_Value := 9 # 1 |}].

Definition exTen : list string := ["a";"b";"c";"d";"e";"f";"g";"h";"i";"j"].

Definition exNotExist : GoError := ErrString "storage: bucket doesn't exist".

Definition exTimeout : GoError := ErrString "context deadline exceeded".

Definition exGcsConfig : ScalerConfig :=
  exConfig [("bucketName", "b"); ("maxBucketItemsToScan", "-5")] [].

Definition exPrometheusAddressRule : FieldRule :=
  {| fr_key := "prometheusAddress"; fr_auth := false; fr_ok := exValidURL;
     fr_missing := "no prometheusAddress given";
     fr_invalid := fun v => if exValidURL v then None
                            else Some (ErrString "invalid prometheusAddress") |}.

Definition exOnlyQuery : ScalerConfig := exConfig [("query", "up")] [].

(** An address without a scheme, and no apiKey. *)
Definition exBadAddress : ScalerConfig :=
  exConfig [("query", "up"); ("prometheusAddress", "localhost:9090")] [].

Definition exFullConfig : ScalerConfig :=
  exConfig [("query", "up"); ("prometheusAddress", "http://prometheus:9090");
            ("predictHorizon", "2h"); ("queryStep", "2m"); ("historyTimeWindow", "7d");
            ("threshold", "2000")] [("apiKey", "key")].

Definition exScanConfig (maxScan : string) : ScalerConfig :=
  exConfig [("bucketName", "b"); ("maxBucketItemsToScan", maxScan)] [].

(* ================================================================== *)
(** * Properties *)

(** ** Small evaluations of the embedded helpers *)

Example ParseInt_neg : ParseInt "-5" = Ok (-5)%Z.
Proof. reflexivity. Qed.
Example Atoi_zero : Atoi "0" = Ok 0%Z.
Proof. reflexivity. Qed.
Example Atoi_plus : Atoi "+12" = Ok 12%Z.
Proof. reflexivity. Qed.
Example Atoi_bad : exists e, Atoi "1x" = Err e.
Proof. eexists. reflexivity. Qed.
Example Atoi_sign_only : exists e, Atoi "-" = Err e.
Proof. eexists. reflexivity. Qed.
Example Atoi_range : exists e, Atoi "9223372036854775808" = Err e.
Proof. eexists. reflexivity. Qed.
Example Atoi_min : Atoi "-9223372036854775808" = Ok (- 2 ^ 63)%Z.
Proof. reflexivity. Qed.
Example goRound_half : goRound (3 # 2) = 2%Z /\ goRound (-3 # 2) = (-2)%Z /\ goRound (7 # 5) = 1%Z.
Proof. repeat split; reflexivity. Qed.
Example Qtrunc_ex : Qtrunc (19 # 2) = 9%Z /\ Qtrunc (-19 # 2) = (-9)%Z.
Proof. split; reflexivity. Qed.
Example storage_error_recognized :
  Contains (Error (ErrString "storage: bucket doesn't exist")) bucketNotExist = true.
Proof. reflexivity. Qed.
Example SetAttrSelection_Name : SetAttrSelection ["Name"] = None.
Proof. reflexivity. Qed.
Example count_ten_items_bound_three :
  fst (getItemCount (bucketListing ["a";"b";"c";"d";"e";"f";"g";"h";"i";"j"]) 3) = (3%Z, None).
Proof. reflexivity. Qed.

(** ** PredictKube: value, activity and horizon *)

Section PredictKubeProps.
Variable PbTimestamp : Type.
Variable AdaptTimeToPbTimestamp : ModelTime -> result PbTimestamp.
Variable ParseFloat : string -> result Q.
Variable predictKubeMetricName : Z -> string.
Variable grpcStatusCode : GoError -> string.

Local Abbreviation Item := (Item PbTimestamp).
Local Abbreviation doQuery := (doQuery PbTimestamp AdaptTimeToPbTimestamp ParseFloat predictKubeMetricName).
Local Abbreviation doPredictRequest := (doPredictRequest PbTimestamp AdaptTimeToPbTimestamp ParseFloat predictKubeMetricName).
Local Abbreviation GetMetrics := (GetMetrics PbTimestamp AdaptTimeToPbTimestamp ParseFloat predictKubeMetricName).
Local Abbreviation IsActive := (IsActive PbTimestamp AdaptTimeToPbTimestamp ParseFloat predictKubeMetricName grpcStatusCode).

Lemma maxClosure_max (x y : Z) : maxClosure x y = Z.max x y.
Proof. unfold maxClosure. destruct (Z.ltb_spec x y); lia. Qed.




(** C4 (amended, predictive part): a successful computation whose final
    value is exactly 0 makes GetMetrics return an error and no metric. *)
Lemma predict_zero_is_error :
  forall (env : Env PbTimestamp) (m0 m : predictKubeMetadata) (metricName : string),
    doPredictRequest env m0 = (m, Ok 0%Z) ->
    GetMetrics env m0 metricName = (m, ([], Some emptyResponseErr)).
Proof. intros env m0 m metricName H. unfold GetMetrics. rewrite H. reflexivity. Qed.

End PredictKubeProps.



(** C3: with predictHorizon 90s and queryStep 1m the horizon sent to the
    engine is 1 (the integer quotient), while round(90s / 1m) = 2; a zero
    queryStep is replaced by the 5-minute default before the division. *)
Theorem forecast_horizon_truncates :
  snd (doPredictRequest Z exAdapt exParseFloat exName
         (exEnv (VVector []) (fun h _ => Ok h) (Some tt, None))
         (exMeta (90 * second) minute)) = Ok 1%Z /\
  goRound (inject_Z (90 * second) / inject_Z minute) = 2%Z /\
  snd (doPredictRequest Z exAdapt exParseFloat exName
         (exEnv (VVector []) (fun h _ => Ok h) (Some tt, None))
         (exMeta (10 * minute) 0)) = Ok 2%Z.
Proof. repeat split; reflexivity. Qed.

(** C4 counterexample: the storage scaler counting zero objects returns a
    zero-valued metric and no error. *)
Lemma gcs_zero_count_is_reported :
  gcsGetMetrics (exGcs 1000) [] "m" 0 =
  ([{| emv_MetricName := "m"; emv_Value := 0; emv_Timestamp := 0 |}], None).
Proof. reflexivity. Qed.

(** C4 (amended): the zero-as-error policy belongs to the predictive
    scaler only: its GetMetrics turns a final value of exactly 0 into an
    error with no metric, while the storage scaler reports a count of 0 as
    one zero-valued metric without error. *)
Theorem getMetrics_zero_policy_per_variant :
  (forall PbT adapt pf name (env : Env PbT) (m0 m : predictKubeMetadata) metricName',
     doPredictRequest PbT adapt pf name env m0 = (m, Ok 0%Z) ->
     GetMetrics PbT adapt pf name env m0 metricName' = (m, ([], Some emptyResponseErr))) /\
  (forall Auth MT (s : gcsScaler Auth MT) (it rest : ObjectIterator) metricName' now',
     getItemCount it (maxBucketItemsToScan _ (gs_metadata _ _ s)) = ((0%Z, None), rest) ->
     gcsGetMetrics s it metricName' now' =
     ([{| emv_MetricName := metricName'; emv_Value := 0; emv_Timestamp := now' |}], None)).
Proof.
  split.
  - intros. apply predict_zero_is_error. assumption.
  - intros Auth MT s it rest metricName' now' H. unfold gcsGetMetrics. rewrite H. reflexivity.
Qed.

(** ** GCP storage: the bounded object counter *)

Lemma countLoop_stop (it : ObjectIterator) (count maxCount : Z) :
  (maxCount <= count)%Z -> countLoop it count maxCount = ((count, None), it).
Proof.
  intros H. destruct it; simpl; destruct (Z.ltb_spec count maxCount); try lia; reflexivity.
Qed.

Lemma countLoop_bounded (it : ObjectIterator) :
  forall count maxCount, (0 <= count <= maxCount)%Z ->
  (0 <= fst (fst (countLoop it count maxCount)) <= maxCount)%Z.
Proof.
  induction it as [|r rest IH]; intros count maxCount H; simpl.
  - destruct (count <? maxCount)%Z; simpl; lia.
  - destruct (Z.ltb_spec count maxCount); [|simpl; lia].
    destruct r as [name| |e].
    + apply IH. lia.
    + simpl. lia.
    + destruct (Contains (Error e) bucketNotExist); simpl; lia.
Qed.

Lemma countLoop_listing (names : list string) :
  forall count maxCount, (count <= maxCount)%Z ->
  countLoop (map NItem names) count maxCount =
  ((Z.min (count + Z.of_nat (length names)) maxCount, None),
   drop (Z.to_nat (maxCount - count)) (map NItem names)).
Proof.
  induction names as [|n rest IH]; intros count maxCount H; simpl.
  - destruct (Z.ltb_spec count maxCount); rewrite drop_nil; f_equal; f_equal; lia.
  - destruct (Z.ltb_spec count maxCount).
    + rewrite IH by lia.
      replace (Z.to_nat (maxCount - count)) with (S (Z.to_nat (maxCount - (count + 1)))) by lia.
      simpl. f_equal. f_equal. lia.
    + replace (maxCount - count)%Z with 0%Z by lia. simpl. f_equal. f_equal. lia.
Qed.

Lemma countLoop_error_after (names : list string) (e : GoError) (rest : ObjectIterator) :
  forall count maxCount, (count + Z.of_nat (length names) < maxCount)%Z ->
  countLoop ((map NItem names) ++ NErr e :: rest)%list count maxCount =
  if Contains (Error e) bucketNotExist then ((0%Z, None), rest)
  else ((count + Z.of_nat (length names))%Z, Some e, rest).
Proof.
  induction names as [|n ns IH]; intros count maxCount H; simpl in *.
  - destruct (Z.ltb_spec count maxCount); [|lia].
    rewrite Z.add_0_r. reflexivity.
  - destruct (Z.ltb_spec count maxCount); [|lia].
    rewrite IH by lia. replace (count + 1 + Z.of_nat (length ns))%Z
      with (count + Z.pos (Pos.of_succ_nat (length ns)))%Z by lia. reflexivity.
Qed.

Lemma getItemCount_loop (it : ObjectIterator) (maxCount : Z) :
  getItemCount it maxCount = countLoop it 0 maxCount.
Proof. reflexivity. Qed.

(** C5 (amended): for a non-negative bound the count never exceeds the
    bound, equals min(#objects, bound) on a bucket's listing, and when the
    bucket holds at least [bound] objects it is exactly the bound, with
    no object read beyond it; a negative bound gives 0 without reading. *)
Theorem getItemCount_saturating :
  forall maxCount : Z,
  ((0 <= maxCount)%Z ->
     (forall it, (0 <= fst (fst (getItemCount it maxCount)) <= maxCount)%Z) /\
     (forall names, fst (getItemCount (bucketListing names) maxCount) =
                    (Z.min (Z.of_nat (length names)) maxCount, None)) /\
     (forall names, (maxCount <= Z.of_nat (length names))%Z ->
        getItemCount (bucketListing names) maxCount =
        ((maxCount, None), drop (Z.to_nat maxCount) (bucketListing names)))) /\
  ((maxCount < 0)%Z -> forall it, getItemCount it maxCount = ((0%Z, None), it)).
Proof.
  intros maxCount. split.
  - intros H. split; [|split].
    + intros it. rewrite getItemCount_loop. apply countLoop_bounded. lia.
    + intros names. rewrite getItemCount_loop. unfold bucketListing.
      rewrite countLoop_listing by lia. reflexivity.
    + intros names Hn. rewrite getItemCount_loop. unfold bucketListing.
      rewrite countLoop_listing by lia. f_equal; [f_equal; lia|]. f_equal. lia.
  - intros H it. rewrite getItemCount_loop. apply countLoop_stop. lia.
Qed.

(** C5 counterexample: with the bound -1 (maxBucketItemsToScan = "-1" is
    accepted) the count 0 exceeds the bound. *)
Lemma getItemCount_exceeds_negative_bound :
  getItemCount (bucketListing []) (-1) = ((0%Z, None), []) /\ (-1 < 0)%Z.
Proof. split; [reflexivity|lia]. Qed.

(** C6: an enumeration error met after [k] objects, before the bound is
    reached, gives [(0, nil)] when it says the bucket does not exist and
    [(k, err)] otherwise. *)
Theorem getItemCount_enumeration_error :
  forall (names : list string) (e : GoError) (rest : ObjectIterator) (maxCount : Z),
    (Z.of_nat (length names) < maxCount)%Z ->
    getItemCount (bucketListing names ++ NErr e :: rest)%list maxCount =
    if Contains (Error e) bucketNotExist then ((0%Z, None), rest)
    else ((Z.of_nat (length names), Some e), rest).
Proof.
  intros names e rest maxCount H. rewrite getItemCount_loop. unfold bucketListing.
  rewrite countLoop_error_after by lia. reflexivity.
Qed.

(** C9: IsActive counts with the bound 1, whatever the scaler's metadata:
    true exactly when the bucket holds an object, and [(false, nil)] for a
    bucket that does not exist. *)
Theorem gcs_isActive_bound_one :
  forall Auth MT (s : gcsScaler Auth MT),
    (forall it, gcsIsActive s it =
       match getItemCount it 1 with
       | ((_, Some e), _) => (false, Some e)
       | ((items, None), _) => ((0 <? items)%Z, None)
       end) /\
    (forall Auth' MT' (s' : gcsScaler Auth' MT') it, gcsIsActive s it = gcsIsActive s' it) /\
    (forall names, gcsIsActive s (bucketListing names) = (Nat.ltb 0 (length names), None)) /\
    (forall e rest, Contains (Error e) bucketNotExist = true ->
       gcsIsActive s (NErr e :: rest) = (false, None)).
Proof.
  intros Auth MT s. split; [|split; [|split]].
  - intros it. reflexivity.
  - intros. reflexivity.
  - intros [|n ns]; [reflexivity|]. unfold gcsIsActive, getItemCount. simpl.
    rewrite countLoop_stop by lia. reflexivity.
  - intros e rest H. unfold gcsIsActive, getItemCount. simpl. rewrite H. reflexivity.
Qed.

(** ** PredictKube: normalisation of Prometheus results *)

Section ParseProps.
Variable PbTimestamp : Type.
Variable AdaptTimeToPbTimestamp : ModelTime -> result PbTimestamp.
Variable ParseFloat : string -> result Q.
Variable predictKubeMetricName : Z -> string.

Local Abbreviation Item := (Item PbTimestamp).

Lemma valuesLoop_ok (name : string) (vs : list SamplePair) :
  forall out : list Item,
  (forall sp, In sp vs -> exists t, AdaptTimeToPbTimestamp (sp_Timestamp sp) = Ok t) ->
  exists l, valuesLoop PbTimestamp AdaptTimeToPbTimestamp name vs out = Ok (out ++ l)%list /\
            Forall2 (keeps PbTimestamp AdaptTimeToPbTimestamp name) vs l.
Proof.
  induction vs as [|v rest IH]; intros out H; simpl.
  - exists []. rewrite app_nil_r. split; [reflexivity|constructor].
  - destruct (H v (or_introl eq_refl)) as [t Ht]. rewrite Ht.
    destruct (IH (out ++ [{| it_Timestamp := t; it_Value := sp_Value v;
                             it_MetricName := name |}])%list) as [l [Hl Hf]].
    { intros sp Hin. apply H. right. exact Hin. }
    eexists. split; [rewrite Hl, <- app_assoc; reflexivity|].
    constructor; [|exact Hf]. repeat split; assumption.
Qed.

Lemma matrixLoop_ok (name : string) (res : list SampleStream) :
  forall out : list Item,
  (forall sp, In sp (concat (map ss_Values res)) ->
     exists t, AdaptTimeToPbTimestamp (sp_Timestamp sp) = Ok t) ->
  exists l, matrixLoop PbTimestamp AdaptTimeToPbTimestamp name res out = Ok (out ++ l)%list /\
            Forall2 (keeps PbTimestamp AdaptTimeToPbTimestamp name) (concat (map ss_Values res)) l.
Proof.
  induction res as [|st rest IH]; intros out H; simpl.
  - exists []. rewrite app_nil_r. split; [reflexivity|constructor].
  - destruct (valuesLoop_ok name (ss_Values st) out) as [l1 [H1 F1]].
    { intros sp Hin. apply H. simpl. apply in_or_app. left. exact Hin. }
    rewrite H1.
    destruct (IH (out ++ l1)%list) as [l2 [H2 F2]].
    { intros sp Hin. apply H. simpl. apply in_or_app. right. exact Hin. }
    exists (l1 ++ l2)%list. split; [rewrite H2, app_assoc; reflexivity|].
    apply Forall2_app; assumption.
Qed.

(** C7: a matrix of [N] samples in total normalises to exactly [N]
    observations, series by series and in-series order, each with its
    sample's timestamp and value; an unrecognised shape is the
    invalid-metric-type error; an unparseable string sample fails. *)
Theorem parse_matrix_flattens :
  forall m : predictKubeMetadata,
    (forall streams : list SampleStream,
       (forall sp, In sp (concat (map ss_Values streams)) ->
          exists t, AdaptTimeToPbTimestamp (sp_Timestamp sp) = Ok t) ->
       exists out,
         parsePrometheusResult PbTimestamp AdaptTimeToPbTimestamp ParseFloat
           predictKubeMetricName m (VMatrix streams) = Ok out /\
         length out = length (concat (map ss_Values streams)) /\
         Forall2 (keeps PbTimestamp AdaptTimeToPbTimestamp (predictKubeMetricName (scalerIndex m)))
           (concat (map ss_Values streams)) out) /\
    parsePrometheusResult PbTimestamp AdaptTimeToPbTimestamp ParseFloat
      predictKubeMetricName m VOther = Err (ErrString invalidMetricTypeErr) /\
    (forall (sv : ModelString) (e : GoError), ParseFloat (str_Value sv) = Err e ->
       exists e', parsePrometheusResult PbTimestamp AdaptTimeToPbTimestamp ParseFloat
                    predictKubeMetricName m (VString sv) = Err e').
Proof.
  intros m. split; [|split].
  - intros streams H. unfold parsePrometheusResult.
    destruct (matrixLoop_ok (predictKubeMetricName (scalerIndex m)) streams [] H)
      as [l [Hl Hf]].
    exists l. rewrite Hl. split; [reflexivity|]. split; [|exact Hf].
    symmetry. eapply Forall2_length. exact Hf.
  - reflexivity.
  - intros sv e He. unfold parsePrometheusResult.
    destruct (AdaptTimeToPbTimestamp (str_Timestamp sv)) as [t|e0].
    + rewrite He. eexists. reflexivity.
    + eexists. reflexivity.
Qed.

End ParseProps.

(** Witness for C7: two series of two and one samples. *)
Lemma parse_matrix_flattens_witness :
  let streams := [{| ss_Metric := []; ss_Values := [{| sp_Timestamp := 1; sp_Value := 5 # 1 |};
                                                    {| sp_Timestamp := 2; sp_Value := 9 # 1 |}] |};
                  {| ss_Metric := []; ss_Values := [{| sp_Timestamp := 1; sp_Value := 3 # 2 |}] |}] in
  (forall sp, In sp (concat (map ss_Values streams)) ->
     exists t, exAdapt (sp_Timestamp sp) = Ok t) /\
  exists out,
    parsePrometheusResult Z exAdapt exParseFloat exName (exMeta minute minute) (VMatrix streams) = Ok out /\
    length out = length (concat (map ss_Values streams)) /\
    Forall2 (keeps Z exAdapt (exName 0)) (concat (map ss_Values streams)) out.
Proof.
  intros streams.
  assert (H : forall sp, In sp (concat (map ss_Values streams)) ->
                exists t, exAdapt (sp_Timestamp sp) = Ok t).
  { intros sp _. eexists. reflexivity. }
  split; [exact H|].
  exact (proj1 (parse_matrix_flattens Z exAdapt exParseFloat exName (exMeta minute minute)) streams H).
Defined.

(** ** GCP storage: metadata and construction *)

Section GcsProps.
Variable gcpAuthorizationMetadata : Type.
Variable getGcpAuthorization : ScalerConfig -> result gcpAuthorizationMetadata.
Variable GenerateMetricNameWithIndex : Z -> string -> string.
Variable NormalizeString : string -> string.
Variable MetricTargetType : Type.
Variable GetMetricTargetType : ScalerConfig -> result MetricTargetType.
Variable NewClient : gcpAuthorizationMetadata -> result unit.

Local Abbreviation gcsParse := (parseGcsMetadata gcpAuthorizationMetadata
  getGcpAuthorization GenerateMetricNameWithIndex NormalizeString).
Local Abbreviation gcsNew := (NewGcsScaler gcpAuthorizationMetadata
  getGcpAuthorization GenerateMetricNameWithIndex NormalizeString MetricTargetType
  GetMetricTargetType NewClient).
Local Abbreviation maxScan := (maxBucketItemsToScan gcpAuthorizationMetadata).

(** C10: any integer [Atoi] accepts, zero and negatives included, becomes
    the scan bound; a configuration that is otherwise valid constructs;
    with a non-positive bound getItemCount returns [(0, nil)] without
    reading the iterator and GetMetrics reports a zero count. *)
Theorem gcs_nonpositive_bound_accepted :
  forall (config : ScalerConfig) (bn v : string) (n : Z) (a : gcpAuthorizationMetadata),
    TriggerMetadata config !! "bucketName" = Some bn -> bn <> "" ->
    (forall t, TriggerMetadata config !! "targetObjectCount" = Some t ->
       exists k, ParseInt t = Ok k) ->
    TriggerMetadata config !! "maxBucketItemsToScan" = Some v -> Atoi v = Ok n ->
    getGcpAuthorization config = Ok a ->
    (exists meta, gcsParse config = Ok meta /\ maxScan meta = n) /\
    (forall mt, GetMetricTargetType config = Ok mt -> NewClient a = Ok tt ->
       exists s, fst (gcsNew config) = Ok s /\
                 maxScan (gs_metadata _ _ s) = n) /\
    ((n <= 0)%Z -> forall it, getItemCount it n = ((0%Z, None), it)) /\
    ((n <= 0)%Z -> forall (s : gcsScaler gcpAuthorizationMetadata MetricTargetType)
                          it metricName' now',
       maxScan (gs_metadata _ _ s) = n ->
       gcsGetMetrics s it metricName' now' =
       ([{| emv_MetricName := metricName'; emv_Value := 0; emv_Timestamp := now' |}], None)).
Proof.
  intros config bn v n a Hbn Hne Ht Hv Hn Ha.
  assert (Hp : exists meta, gcsParse config = Ok meta /\ maxScan meta = n).
  { unfold parseGcsMetadata. rewrite Hbn.
    destruct (String.eqb_spec bn ""); [contradiction|].
    destruct (TriggerMetadata config !! "targetObjectCount") as [t|] eqn:Et.
    - destruct (Ht t eq_refl) as [k Hk]. rewrite Hk, Hv, Hn, Ha.
      eexists. split; reflexivity.
    - rewrite Hv, Hn, Ha. eexists. split; reflexivity. }
  split; [exact Hp|]. split; [|split].
  - intros mt Hmt Hc. destruct Hp as [meta [Hp Hm]].
    unfold NewGcsScaler. rewrite Hmt, Hp.
    assert (Hg : gcpAuthorization _ meta = a).
    { revert Hp. unfold parseGcsMetadata. rewrite Hbn.
      destruct (String.eqb bn ""); [discriminate|].
      destruct (TriggerMetadata config !! "targetObjectCount");
        [destruct (ParseInt _); [|discriminate]|]; rewrite Hv, Hn, Ha;
        intros Heq; injection Heq as <-; reflexivity. }
    rewrite Hg, Hc. eexists. split; [reflexivity|exact Hm].
  - intros Hle it. rewrite getItemCount_loop. apply countLoop_stop. exact Hle.
  - intros Hle s it metricName' now' Hs. unfold gcsGetMetrics. rewrite Hs.
    rewrite getItemCount_loop, countLoop_stop by exact Hle. reflexivity.
Qed.

End GcsProps.

(** ** Metadata validation before any connection *)

Section CtorProps.
Variable validURL validJWT : string -> bool.
Variable ParseDuration : string -> result Z.
Variable AuthMeta : Type.
Variable GetAuthConfigs : gmap string string -> gmap string string -> result AuthMeta.
Variable MetricTargetType : Type.
Variable GetMetricTargetType : ScalerConfig -> result MetricTargetType.
Variable initPrometheusConn setupClientConn : predictKubeMetadata -> result unit.
Variable gcpAuthorizationMetadata : Type.
Variable getGcpAuthorization : ScalerConfig -> result gcpAuthorizationMetadata.
Variable GenerateMetricNameWithIndex : Z -> string -> string.
Variable NormalizeString : string -> string.
Variable NewClient : gcpAuthorizationMetadata -> result unit.

Local Abbreviation parsePK := (parsePredictKubeMetadata validURL validJWT ParseDuration
  AuthMeta GetAuthConfigs).
Local Abbreviation NewPK := (NewPredictKubeScaler validURL validJWT ParseDuration AuthMeta
  GetAuthConfigs MetricTargetType GetMetricTargetType initPrometheusConn setupClientConn).
Local Abbreviation rules := (predictKubeRules validURL validJWT ParseDuration).
Local Abbreviation parseGcs := (parseGcsMetadata gcpAuthorizationMetadata
  getGcpAuthorization GenerateMetricNameWithIndex NormalizeString).
Local Abbreviation NewGcs := (NewGcsScaler gcpAuthorizationMetadata
  getGcpAuthorization GenerateMetricNameWithIndex NormalizeString MetricTargetType
  GetMetricTargetType NewClient).

Lemma pk_parse_err_no_connection (config : ScalerConfig) (e : GoError) :
  parsePK config = Err e -> (exists e', fst (NewPK config) = Err e') /\ snd (NewPK config) = [].
Proof.
  intros H. unfold NewPredictKubeScaler.
  destruct (GetMetricTargetType config); [rewrite H|]; split; eauto.
Qed.

Lemma gcs_parse_err_no_connection (config : ScalerConfig) (e : GoError) :
  parseGcs config = Err e -> (exists e', fst (NewGcs config) = Err e') /\ snd (NewGcs config) = [].
Proof.
  intros H. unfold NewGcsScaler.
  destruct (GetMetricTargetType config); [rewrite H|]; split; eauto.
Qed.

Ltac norm_holds :=
  repeat match goal with
  | H : (_ && _) = true |- _ => apply andb_prop in H; destruct H
  | H : negb _ = true |- _ => apply negb_true_iff in H
  | H : isOk ?x = true |- _ =>
      let E := fresh "E" in destruct x eqn:E; [clear H|discriminate H]
  | H : match ?x with Some _ => _ | None => false end = true |- _ =>
      let E := fresh "E" in destruct x eqn:E; [|discriminate H]
  end.

Ltac rewrite_eval :=
  repeat (match goal with E : ?x = _ |- context[?x] => rewrite E end; cbv beta iota).

Lemma pk_first_missing (config : ScalerConfig) (i : nat) (r : FieldRule) :
  rules !! i = Some r -> ruleSource config r !! fr_key r = None ->
  forallb (ruleHolds config) (take i rules) = true ->
  parsePK config = Err (ErrString (fr_missing r)).
Proof.
  intros Hr Hm Hpre.
  do 7 (destruct i as [|i]; [cbn in Hr; injection Hr as <-;
          cbn [take forallb predictKubeRules] in Hpre; unfold ruleHolds, ruleSource in Hpre, Hm;
          cbn [fr_key fr_auth fr_ok] in Hpre, Hm;
          norm_holds; unfold parsePredictKubeMetadata; rewrite_eval; reflexivity|]).
  discriminate.
Qed.

Lemma missing_messages_distinct :
  NoDup (map fr_missing rules ++ ["no bucket name given"]).
Proof. apply (bool_decide_unpack _). vm_compute. reflexivity. Qed.

Lemma firstRuleError_first (config : ScalerConfig) (rs : list FieldRule) :
  forall (i : nat) (r : FieldRule), rs !! i = Some r -> ruleCheck config r <> None ->
  exists j r' e, (j <= i)%nat /\ rs !! j = Some r' /\ ruleCheck config r' = Some e /\
    (forall k r'', (k < j)%nat -> rs !! k = Some r'' -> ruleCheck config r'' = None) /\
    firstRuleError config rs = Some e.
Proof.
  induction rs as [|r0 rest IH]; intros i r Hr Hc; [discriminate Hr|].
  cbn [firstRuleError]. destruct (ruleCheck config r0) as [e0|] eqn:H0.
  - exists 0%nat, r0, e0. split; [lia|]. split; [reflexivity|]. split; [exact H0|].
    split; [intros k r'' Hk; lia|reflexivity].
  - destruct i as [|i]; [cbn in Hr; injection Hr as <-; contradiction|].
    destruct (IH i r Hr Hc) as (j & r' & e & Hj & Hr' & He & Hk & Hf).
    exists (S j), r', e. split; [lia|]. split; [exact Hr'|]. split; [exact He|].
    split; [|exact Hf].
    intros [|k] r'' Hlt Hk'; [cbn in Hk'; injection Hk' as <-; exact H0|].
    apply (Hk k); [lia|exact Hk'].
Qed.

Ltac split_pk config :=
  repeat (match goal with
  | |- context [TriggerMetadata config !! ?k] => destruct (TriggerMetadata config !! k)
  | |- context [AuthParams config !! ?k] => destruct (AuthParams config !! k)
  | |- context [String.eqb ?a ""] => destruct (String.eqb a "")
  | |- context [validURL ?a] => destruct (validURL a)
  | |- context [validJWT ?a] => destruct (validJWT a)
  | |- context [ParseDuration ?a] => destruct (ParseDuration a)
  | |- context [ParseInt ?a] => destruct (ParseInt a)
  end; cbv beta iota; cbn [negb]).

Lemma pk_parse_first_error (config : ScalerConfig) (e : GoError) :
  firstRuleError config rules = Some e -> parsePK config = Err e.
Proof.
  unfold predictKubeRules. cbn [firstRuleError]. unfold ruleCheck, ruleSource.
  cbn [fr_key fr_auth fr_invalid fr_missing]. unfold parsePredictKubeMetadata.
  split_pk config; intros H; congruence.
Qed.

(** C8 (amended): a configuration missing a required key always fails
    validation, and the constructor then returns an error having attempted
    no connection. The error is that of the first failing check in the
    fixed order of [predictKubeRules]: some check [j] at or before the
    absent key's, all checks before [j] passing, whether [j] fails for an
    absent or for an invalid value. So when every key checked before the
    absent one is present and valid the error is the distinct
    "no ... given" message of the absent key. The storage scaler's only
    required key, bucketName, behaves the same way. *)
Theorem metadata_missing_field_first_failure :
  (forall (config : ScalerConfig) (i : nat) (r : FieldRule),
     rules !! i = Some r -> ruleSource config r !! fr_key r = None ->
     (exists j r' e, (j <= i)%nat /\ rules !! j = Some r' /\ ruleCheck config r' = Some e /\
        (forall k r'', (k < j)%nat -> rules !! k = Some r'' -> ruleCheck config r'' = None) /\
        parsePK config = Err e) /\
     (exists e', fst (NewPK config) = Err e') /\ snd (NewPK config) = [] /\
     (forallb (ruleHolds config) (take i rules) = true ->
        parsePK config = Err (ErrString (fr_missing r)))) /\
  (forall config : ScalerConfig, TriggerMetadata config !! "bucketName" = None ->
     parseGcs config = Err (ErrString "no bucket name given") /\
     (exists e', fst (NewGcs config) = Err e') /\ snd (NewGcs config) = []) /\
  NoDup (map fr_missing rules ++ ["no bucket name given"]).
Proof.
  split; [|split].
  - intros config i r Hr Hm.
    assert (Hc : ruleCheck config r <> None) by (unfold ruleCheck; rewrite Hm; discriminate).
    destruct (firstRuleError_first config rules i r Hr Hc)
      as (j & r' & e & Hj & Hr' & He & Hk & Hf0).
    pose proof (pk_parse_first_error config e Hf0) as Hp.
    destruct (pk_parse_err_no_connection config e Hp) as [Hf Hs].
    split; [exists j, r', e; auto 6|]. split; [exact Hf|]. split; [exact Hs|].
    apply pk_first_missing; assumption.
  - intros config Hb.
    assert (Hp : parseGcs config = Err (ErrString "no bucket name given")).
    { unfold parseGcsMetadata. rewrite Hb. reflexivity. }
    split; [exact Hp|]. exact (gcs_parse_err_no_connection config _ Hp).
  - apply missing_messages_distinct.
Qed.

End CtorProps.

(* ------------------------------------------------------------------ *)
(** ** Witnesses and counterexamples on concrete inputs *)



(** Witness for C4: a prediction of 0 over an empty window, and an empty bucket. *)
Lemma getMetrics_zero_policy_per_variant_witness :
  let env := exEnv (VVector []) (fun _ _ => Ok 0%Z) (Some tt, None) in
  let m0 := exMeta (10 * minute) minute in
  doPredictRequest Z exAdapt exParseFloat exName env m0 = (m0, Ok 0%Z) /\
  GetMetrics Z exAdapt exParseFloat exName env m0 "m" = (m0, ([], Some emptyResponseErr)) /\
  getItemCount [] (maxBucketItemsToScan _ (gs_metadata _ _ (exGcs 1000))) = ((0%Z, None), []) /\
  gcsGetMetrics (exGcs 1000) [] "m" 0 =
  ([{| emv_MetricName := "m"; emv_Value := 0; emv_Timestamp := 0 |}], None).
Proof.
  intros env m0.
  assert (h1 : doPredictRequest Z exAdapt exParseFloat exName env m0 = (m0, Ok 0%Z)) by reflexivity.
  assert (h2 : getItemCount [] (maxBucketItemsToScan _ (gs_metadata _ _ (exGcs 1000)))
               = ((0%Z, None), [])) by reflexivity.
  split; [exact h1|]. split; [exact (proj1 getMetrics_zero_policy_per_variant _ _ _ _ env m0 m0 "m" h1)|].
  split; [exact h2|].
  exact (proj2 getMetrics_zero_policy_per_variant _ _ (exGcs 1000) [] [] "m" 0%Z h2).
Defined.

(** Witness for C5: bound 3 on a bucket of ten objects, and bound -1. *)
Lemma getItemCount_saturating_witness :
  (0 <= 3)%Z /\ (3 <= Z.of_nat (length exTen))%Z /\
  getItemCount (bucketListing exTen) 3 = ((3%Z, None), drop 3 (bucketListing exTen)) /\
  (-1 < 0)%Z /\ getItemCount (bucketListing exTen) (-1) = ((0%Z, None), bucketListing exTen).
Proof.
  assert (h1 : (0 <= 3)%Z) by lia.
  assert (h2 : (3 <= Z.of_nat (length exTen))%Z) by (simpl; lia).
  assert (h3 : (-1 < 0)%Z) by lia.
  split; [exact h1|]. split; [exact h2|].
  split; [exact (proj2 (proj2 (proj1 (getItemCount_saturating 3) h1)) exTen h2)|].
  split; [exact h3|]. exact (proj2 (getItemCount_saturating (-1)) h3 (bucketListing exTen)).
Defined.

(** Witness for C6: two objects then an error, bound 3. *)
Lemma getItemCount_enumeration_error_witness :
  (Z.of_nat (length ["a"; "b"]) < 3)%Z /\
  getItemCount (bucketListing ["a"; "b"] ++ [NErr exNotExist])%list 3 = ((0%Z, None), []) /\
  getItemCount (bucketListing ["a"; "b"] ++ [NErr exTimeout])%list 3 = ((2%Z, Some exTimeout), []).
Proof.
  assert (h : (Z.of_nat (length ["a"; "b"]) < 3)%Z) by (simpl; lia).
  split; [exact h|]. split.
  - exact (getItemCount_enumeration_error ["a"; "b"] exNotExist [] 3 h).
  - exact (getItemCount_enumeration_error ["a"; "b"] exTimeout [] 3 h).
Defined.

(** Witness for C9: a bucket that does not exist. *)
Lemma gcs_isActive_bound_one_witness :
  Contains (Error exNotExist) bucketNotExist = true /\
  gcsIsActive (exGcs 1000) [NErr exNotExist] = (false, None) /\
  gcsIsActive (exGcs 1000) (bucketListing ["a"]) = (true, None).
Proof.
  assert (h : Contains (Error exNotExist) bucketNotExist = true) by reflexivity.
  split; [exact h|]. split.
  - exact (proj2 (proj2 (proj2 (gcs_isActive_bound_one _ _ (exGcs 1000)))) exNotExist [] h).
  - exact (proj1 (proj2 (proj2 (gcs_isActive_bound_one _ _ (exGcs 1000)))) ["a"]).
Defined.

(** Witness for C10: maxBucketItemsToScan = "-5". *)
Lemma gcs_nonpositive_bound_accepted_witness :
  TriggerMetadata exGcsConfig !! "maxBucketItemsToScan" = Some "-5" /\
  Atoi "-5" = Ok (-5)%Z /\
  (exists meta, exParseGcs exGcsConfig = Ok meta /\ maxBucketItemsToScan _ meta = (-5)%Z) /\
  (exists s, fst (exNewGcs exGcsConfig) = Ok s /\
             maxBucketItemsToScan _ (gs_metadata _ _ s) = (-5)%Z) /\
  (forall it, getItemCount it (-5) = ((0%Z, None), it)).
Proof.
  assert (hb : TriggerMetadata exGcsConfig !! "bucketName" = Some "b") by reflexivity.
  assert (hne : "b" <> "") by discriminate.
  assert (ht : forall t, TriggerMetadata exGcsConfig !! "targetObjectCount" = Some t ->
                 exists k, ParseInt t = Ok k).
  { intros t H. vm_compute in H. discriminate H. }
  assert (hv : TriggerMetadata exGcsConfig !! "maxBucketItemsToScan" = Some "-5") by reflexivity.
  assert (hn : Atoi "-5" = Ok (-5)%Z) by reflexivity.
  assert (ha : exGcpAuth exGcsConfig = Ok tt) by reflexivity.
  destruct (gcs_nonpositive_bound_accepted unit exGcpAuth exGenerateName exNormalize unit
              exGetMetricTargetType exNewClient exGcsConfig "b" "-5" (-5) tt hb hne ht hv hn ha)
    as [Hp [Hc [Hi _]]].
  split; [exact hv|]. split; [exact hn|]. split; [exact Hp|]. split.
  - exact (Hc tt eq_refl eq_refl).
  - apply Hi. lia.
Defined.

(** Witness for C8: only the query is given, so prometheusAddress is the
    first absent key; a storage configuration without bucketName; and a
    configuration whose apiKey is absent but whose address is invalid,
    which fails with the address check, the first failing one. *)
Lemma metadata_missing_field_first_failure_witness :
  predictKubeRules exValidURL exValidJWT exParseDuration !! 1 = Some exPrometheusAddressRule /\
  ruleSource exOnlyQuery exPrometheusAddressRule !! "prometheusAddress" = None /\
  forallb (ruleHolds exOnlyQuery) (take 1 (predictKubeRules exValidURL exValidJWT exParseDuration))
    = true /\
  exParsePK exOnlyQuery = Err (ErrString "no prometheusAddress given") /\
  snd (exNewPK exOnlyQuery) = [] /\
  TriggerMetadata (exConfig [] []) !! "bucketName" = None /\
  exParseGcs (exConfig [] []) = Err (ErrString "no bucket name given") /\
  snd (exNewGcs (exConfig [] [])) = [] /\
  AuthParams exBadAddress !! "apiKey" = None /\
  exParsePK exBadAddress = Err (ErrString "invalid prometheusAddress") /\
  exists j r' e, (j <= 6)%nat /\
    predictKubeRules exValidURL exValidJWT exParseDuration !! j = Some r' /\
    ruleCheck exBadAddress r' = Some e /\
    (forall k r'', (k < j)%nat ->
       predictKubeRules exValidURL exValidJWT exParseDuration !! k = Some r'' ->
       ruleCheck exBadAddress r'' = None) /\
    exParsePK exBadAddress = Err e.
Proof.
  assert (hr : predictKubeRules exValidURL exValidJWT exParseDuration !! 1
               = Some exPrometheusAddressRule) by reflexivity.
  assert (hm : ruleSource exOnlyQuery exPrometheusAddressRule !! "prometheusAddress" = None)
    by reflexivity.
  assert (hp : forallb (ruleHolds exOnlyQuery)
                 (take 1 (predictKubeRules exValidURL exValidJWT exParseDuration)) = true)
    by reflexivity.
  assert (hg : TriggerMetadata (exConfig [] []) !! "bucketName" = None) by reflexivity.
  destruct (metadata_missing_field_first_failure exValidURL exValidJWT exParseDuration unit
              exGetAuthConfigs unit exGetMetricTargetType exConn exConn unit exGcpAuth
              exGenerateName exNormalize exNewClient) as [Hpk [Hgcs _]].
  destruct (Hpk exOnlyQuery 1 exPrometheusAddressRule hr hm) as [_ [_ [Hs Hf]]].
  destruct (Hgcs (exConfig [] []) hg) as [Hgp [_ Hgs]].
  assert (hb : AuthParams exBadAddress !! "apiKey" = None) by reflexivity.
  split; [exact hr|]. split; [exact hm|]. split; [exact hp|]. split; [exact (Hf hp)|].
  split; [exact Hs|]. split; [exact hg|]. split; [exact Hgp|]. split; [exact Hgs|].
  split; [exact hb|]. split; [reflexivity|].
  destruct (predictKubeRules exValidURL exValidJWT exParseDuration !! 6) as [r6|] eqn:H6;
    [|discriminate H6].
  assert (hm6 : ruleSource exBadAddress r6 !! fr_key r6 = None).
  { vm_compute in H6. injection H6 as <-. reflexivity. }
  destruct (Hpk exBadAddress 6 r6 H6 hm6) as [Hfirst _]. exact Hfirst.
Defined.

(** C8 counterexample: apiKey is the absent key, but the query is present
    and empty, so validation fails with the query's error, which does not
    name the absent field. *)
Lemma missing_apiKey_reported_as_query :
  let config := exConfig [("query", ""); ("prometheusAddress", "http://localhost:9090");
                          ("predictHorizon", "2h"); ("queryStep", "2m");
                          ("historyTimeWindow", "7d"); ("threshold", "2000")] [] in
  AuthParams config !! "apiKey" = None /\
  TriggerMetadata config !! "query" = Some "" /\
  exParsePK config = Err (ErrString "no query given") /\
  "no query given" <> "no api key given".
Proof. intros config. split; [reflexivity|]. split; [reflexivity|]. split; [reflexivity|discriminate]. Qed.

(* ================================================================== *)
(** * Further properties of the scalers *)

(** ** PredictKube: horizon, lazily filled step, error paths *)






Section ExtraPredict.
Variable PbTimestamp : Type.
Variable AdaptTimeToPbTimestamp : ModelTime -> result PbTimestamp.
Variable ParseFloat : string -> result Q.
Variable predictKubeMetricName : Z -> string.
Variable grpcStatusCode : GoError -> string.

Local Abbreviation Item := (Item PbTimestamp).
Local Abbreviation qry := (doQuery PbTimestamp AdaptTimeToPbTimestamp ParseFloat predictKubeMetricName).
Local Abbreviation predictReq := (doPredictRequest PbTimestamp AdaptTimeToPbTimestamp ParseFloat predictKubeMetricName).
Local Abbreviation getMetricsPK := (GetMetrics PbTimestamp AdaptTimeToPbTimestamp ParseFloat predictKubeMetricName).
Local Abbreviation isActivePK := (IsActive PbTimestamp AdaptTimeToPbTimestamp ParseFloat predictKubeMetricName grpcStatusCode).

Lemma doQuery_state (env : Env PbTimestamp) (m0 : predictKubeMetadata) :
  fst (qry env m0) =
  if (stepDuration m0 =? 0)%Z then set_stepDuration m0 defaultStep else m0.
Proof. unfold doQuery. destruct (QueryRange _ _ _ _); reflexivity. Qed.

Lemma doPredictRequest_state (env : Env PbTimestamp) (m0 : predictKubeMetadata) :
  fst (predictReq env m0) = fst (qry env m0).
Proof.
  unfold doPredictRequest. destruct (qry env m0) as [m [results|e]]; [|reflexivity].
  destruct (GetPredictMetric _ _ _ _); reflexivity.
Qed.

(** The default step is filled in once, by whichever operation runs first,
    and then stays: the metadata left by IsActive, GetMetrics or the query
    differs from the original only in a non-zero step (the 5-minute
    default when it was 0), and a later query leaves it unchanged. *)
Theorem default_step_filled_once :
  forall (env env' : Env PbTimestamp) (m0 : predictKubeMetadata) (name : string),
    let m1 := fst (qry env m0) in
    m1 = set_stepDuration m0 (stepDuration m1) /\
    stepDuration m1 = (if (stepDuration m0 =? 0)%Z then defaultStep else stepDuration m0) /\
    stepDuration m1 <> 0%Z /\
    fst (getMetricsPK env m0 name) = m1 /\ fst (isActivePK env m0) = m1 /\
    fst (qry env' m1) = m1.
Proof.
  intros env env' m0 name m1.
  assert (Hm1 : m1 = if (stepDuration m0 =? 0)%Z then set_stepDuration m0 defaultStep else m0)
    by apply doQuery_state.
  assert (Hs : stepDuration m1 <> 0%Z).
  { rewrite Hm1. destruct (Z.eqb_spec (stepDuration m0) 0); simpl; [discriminate|assumption]. }
  split; [|split; [|split; [exact Hs|split; [|split]]]].
  - rewrite Hm1. destruct (stepDuration m0 =? 0)%Z; [reflexivity|]. destruct m0; reflexivity.
  - rewrite Hm1. destruct (stepDuration m0 =? 0)%Z; reflexivity.
  - unfold m1. rewrite <- (doPredictRequest_state env m0). unfold GetMetrics.
    destruct (predictReq env m0) as [m [v|e]]; [|reflexivity].
    destruct (v =? 0)%Z; reflexivity.
  - unfold m1, IsActive.
    destruct (qry env m0) as [m [results|e]]; [|reflexivity].
    destruct (HealthCheck _ env) as [[u|] [err|]]; reflexivity.
  - rewrite doQuery_state. apply Z.eqb_neq in Hs. rewrite Hs. reflexivity.
Qed.

Lemma doQuery_env (env env' : Env PbTimestamp) (m0 : predictKubeMetadata) :
  QueryRange _ env' = QueryRange _ env -> now _ env' = now _ env ->
  qry env' m0 = qry env m0.
Proof. intros Hq Hn. unfold doQuery. rewrite Hq, Hn. reflexivity. Qed.

(** Errors of the range query and of the predict call reach the caller of
    GetMetrics unmodified, with no metric; when the query fails the
    engine and the health probe play no part in the answer. *)
Theorem getMetrics_errors_unmodified :
  forall (env : Env PbTimestamp) (m0 m : predictKubeMetadata) (name : string) (e : GoError),
    (qry env m0 = (m, Err e) ->
       getMetricsPK env m0 name = (m, ([], Some e)) /\
       forall env' : Env PbTimestamp, QueryRange _ env' = QueryRange _ env ->
         now _ env' = now _ env -> getMetricsPK env' m0 name = (m, ([], Some e))) /\
    (forall results, qry env m0 = (m, Ok results) ->
       GetPredictMetric _ env (forecastHorizon m) results = Err e ->
       getMetricsPK env m0 name = (m, ([], Some e))).
Proof.
  intros env m0 m name e. split.
  - intros Hq. assert (Hg : forall env' : Env PbTimestamp, qry env' m0 = (m, Err e) ->
                              getMetricsPK env' m0 name = (m, ([], Some e))).
    { intros env' H. unfold GetMetrics, doPredictRequest. rewrite H. reflexivity. }
    split; [apply Hg, Hq|]. intros env' H1 H2. apply Hg. rewrite (doQuery_env env env'); assumption.
  - intros results Hq Hp. unfold GetMetrics, doPredictRequest. rewrite Hq, Hp. reflexivity.
Qed.


(** IsActive is [(false, err)] when the query fails, whatever the probe
    says, and false on an empty window on both the healthy and the
    degraded path. *)
Theorem isActive_query_error_or_empty :
  forall (env : Env PbTimestamp) (m0 m : predictKubeMetadata),
    (forall e, qry env m0 = (m, Err e) -> isActivePK env m0 = (m, (false, Some e))) /\
    (qry env m0 = (m, Ok []) -> fst (snd (isActivePK env m0)) = false).
Proof.
  intros env m0 m. split.
  - intros e Hq. unfold IsActive. rewrite Hq. reflexivity.
  - intros Hq. unfold IsActive. rewrite Hq.
    destruct (HealthCheck _ env) as [[u|] [err|]]; reflexivity.
Qed.

(** When the healthy activity check reports active, a GetMetrics call that
    sees the same query results and a successful prediction never hits the
    zero-value error: it returns one metric with a positive value. *)
Theorem active_implies_positive_metric :
  forall (env : Env PbTimestamp) (m0 m : predictKubeMetadata) (results : list Item)
         (x : Z) (name : string),
    isActivePK env m0 = (m, (true, None)) ->
    qry env m0 = (m, Ok results) ->
    GetPredictMetric _ env (forecastHorizon m) results = Ok x ->
    exists v, (0 < v)%Z /\
      getMetricsPK env m0 name =
      (m, ([{| emv_MetricName := name; emv_Value := v; emv_Timestamp := now _ env |}], None)).
Proof.
  intros env m0 m results x name Ha Hq Hp.
  assert (Hy : (0 < lastObserved _ results)%Z).
  { unfold IsActive in Ha. rewrite Hq in Ha.
    destruct (HealthCheck _ env) as [[u|] [err|]]; try discriminate.
    injection Ha as Hlt. apply Z.ltb_lt. exact Hlt. }
  exists (Z.max x (lastObserved _ results)). split; [lia|].
  unfold GetMetrics, doPredictRequest. rewrite Hq, Hp, maxClosure_max.
  destruct (Z.eqb_spec (Z.max x (lastObserved _ results)) 0); [lia|reflexivity].
Qed.

End ExtraPredict.

Section ExtraParse.
Variable PbTimestamp : Type.
Variable AdaptTimeToPbTimestamp : ModelTime -> result PbTimestamp.
Variable ParseFloat : string -> result Q.
Variable predictKubeMetricName : Z -> string.

Local Abbreviation Item := (Item PbTimestamp).
Local Abbreviation parse := (parsePrometheusResult PbTimestamp AdaptTimeToPbTimestamp
                               ParseFloat predictKubeMetricName).
Local Abbreviation converts := (fun t => exists p, AdaptTimeToPbTimestamp t = Ok p).

Lemma vectorLoop_ok (name : string) (res : list Sample) :
  forall out : list Item,
  Forall (fun s => converts (s_Timestamp s)) res ->
  exists l, vectorLoop PbTimestamp AdaptTimeToPbTimestamp name res out = Ok (out ++ l)%list /\
    Forall2 (fun (s : Sample) (it : Item) => AdaptTimeToPbTimestamp (s_Timestamp s) = Ok (it_Timestamp _ it) /\
                         it_Value _ it = s_Value s /\ it_MetricName _ it = name) res l.
Proof.
  induction res as [|v rest IH]; intros out H; simpl.
  - exists []. rewrite app_nil_r. split; [reflexivity|constructor].
  - inversion H as [|? ? [t Ht] Hrest]; subst. rewrite Ht.
    destruct (IH (out ++ [{| it_Timestamp := t; it_Value := s_Value v;
                             it_MetricName := name |}])%list Hrest) as [l [Hl Hf]].
    eexists. split; [rewrite Hl, <- app_assoc; reflexivity|].
    constructor; [|exact Hf]. repeat split; assumption.
Qed.

Lemma vectorLoop_fail (name : string) (e : GoError) (s : Sample) (post : list Sample) :
  forall (pre : list Sample) (out : list Item),
  Forall (fun s => converts (s_Timestamp s)) pre ->
  AdaptTimeToPbTimestamp (s_Timestamp s) = Err e ->
  vectorLoop PbTimestamp AdaptTimeToPbTimestamp name (pre ++ s :: post) out = Err e.
Proof.
  induction pre as [|v rest IH]; intros out Hpre He; simpl.
  - rewrite He. reflexivity.
  - inversion Hpre as [|? ? [t Ht] Hrest]; subst. rewrite Ht. apply IH; assumption.
Qed.

Lemma valuesLoop_fail (name : string) (e : GoError) (sp : SamplePair) (post : list SamplePair) :
  forall (pre : list SamplePair) (out : list Item),
  Forall (fun s => converts (sp_Timestamp s)) pre ->
  AdaptTimeToPbTimestamp (sp_Timestamp sp) = Err e ->
  valuesLoop PbTimestamp AdaptTimeToPbTimestamp name (pre ++ sp :: post) out = Err e.
Proof.
  induction pre as [|v rest IH]; intros out Hpre He; simpl.
  - rewrite He. reflexivity.
  - inversion Hpre as [|? ? [t Ht] Hrest]; subst. rewrite Ht. apply IH; assumption.
Qed.

Lemma matrixLoop_fail (name : string) (e : GoError) (sp : SamplePair) (post : list SamplePair) :
  forall (res : list SampleStream) (pre : list SamplePair) (out : list Item),
  concat (map ss_Values res) = (pre ++ sp :: post)%list ->
  Forall (fun s => converts (sp_Timestamp s)) pre ->
  AdaptTimeToPbTimestamp (sp_Timestamp sp) = Err e ->
  matrixLoop PbTimestamp AdaptTimeToPbTimestamp name res out = Err e.
Proof.
  induction res as [|st rest IH]; intros pre out Hc Hpre He; simpl in *.
  - destruct pre; discriminate.
  - apply app_eq_app in Hc as [l [[H1 H2]|[H1 H2]]].
    + destruct l as [|x l'].
      * rewrite app_nil_r in H1. simpl in H2.
        destruct (valuesLoop_ok PbTimestamp AdaptTimeToPbTimestamp name (ss_Values st) out)
          as [l1 [Hv _]].
        { intros s Hin. rewrite H1 in Hin. rewrite List.Forall_forall in Hpre. apply Hpre, Hin. }
        rewrite Hv. apply (IH []); [symmetry; exact H2|constructor|exact He].
      * injection H2 as <- _. rewrite H1. rewrite valuesLoop_fail with (e := e); auto.
    + rewrite H1 in Hpre. apply List.Forall_app in Hpre as [Hp1 Hp2].
      destruct (valuesLoop_ok PbTimestamp AdaptTimeToPbTimestamp name (ss_Values st) out)
        as [l1 [Hv _]].
      { intros s Hin. rewrite List.Forall_forall in Hp1. apply Hp1, Hin. }
      rewrite Hv. apply (IH l); assumption.
Qed.

(** Every sample of an instant vector becomes one observation, in order,
    with its converted timestamp, its value and the scaler's metric name;
    a scalar becomes a single observation. *)
Theorem parse_vector_normalises :
  forall (m : predictKubeMetadata) (res : list Sample),
    Forall (fun s => converts (s_Timestamp s)) res ->
    exists out, parse m (VVector res) = Ok out /\ length out = length res /\
      Forall2 (fun (s : Sample) (it : Item) => AdaptTimeToPbTimestamp (s_Timestamp s) = Ok (it_Timestamp _ it) /\
                           it_Value _ it = s_Value s /\
                           it_MetricName _ it = predictKubeMetricName (scalerIndex m)) res out.
Proof.
  intros m res H. unfold parsePrometheusResult.
  destruct (vectorLoop_ok (predictKubeMetricName (scalerIndex m)) res [] H) as [l [Hl Hf]].
  exists l. rewrite Hl. split; [reflexivity|]. split; [|exact Hf].
  symmetry. eapply Forall2_length. exact Hf.
Qed.

(** The first sample whose timestamp fails to convert aborts the whole
    parse with that conversion's error, for instant vectors and for range
    matrices alike: no partial list of observations is returned. *)
Theorem parse_first_conversion_error :
  forall (m : predictKubeMetadata) (e : GoError),
    (forall (pre : list Sample) (s : Sample) (post : list Sample),
       Forall (fun s => converts (s_Timestamp s)) pre ->
       AdaptTimeToPbTimestamp (s_Timestamp s) = Err e ->
       parse m (VVector (pre ++ s :: post)) = Err e) /\
    (forall (streams : list SampleStream) (pre : list SamplePair) (sp : SamplePair)
            (post : list SamplePair),
       concat (map ss_Values streams) = (pre ++ sp :: post)%list ->
       Forall (fun s => converts (sp_Timestamp s)) pre ->
       AdaptTimeToPbTimestamp (sp_Timestamp sp) = Err e ->
       parse m (VMatrix streams) = Err e).
Proof.
  intros m e. split.
  - intros pre s post Hpre He. unfold parsePrometheusResult. apply vectorLoop_fail; assumption.
  - intros streams pre sp post Hc Hpre He. unfold parsePrometheusResult.
    eapply matrixLoop_fail; eassumption.
Qed.

End ExtraParse.

Section ExtraCtor.
Variable validURL validJWT : string -> bool.
Variable ParseDuration : string -> result Z.
Variable AuthMeta : Type.
Variable GetAuthConfigs : gmap string string -> gmap string string -> result AuthMeta.
Variable MetricTargetType : Type.
Variable GetMetricTargetType : ScalerConfig -> result MetricTargetType.
Variable initPrometheusConn setupClientConn : predictKubeMetadata -> result unit.

Local Abbreviation parsePK := (parsePredictKubeMetadata validURL validJWT ParseDuration
  AuthMeta GetAuthConfigs).
Local Abbreviation NewPK := (NewPredictKubeScaler validURL validJWT ParseDuration AuthMeta
  GetAuthConfigs MetricTargetType GetMetricTargetType initPrometheusConn setupClientConn).
Local Abbreviation rules := (predictKubeRules validURL validJWT ParseDuration).

Ltac split_config config :=
  repeat (match goal with
  | |- context [TriggerMetadata config !! ?k] => destruct (TriggerMetadata config !! k) eqn:?
  | |- context [AuthParams config !! ?k] => destruct (AuthParams config !! k) eqn:?
  | |- context [String.eqb ?a ""] => destruct (String.eqb a "") eqn:?
  | |- context [validURL ?a] => destruct (validURL a) eqn:?
  | |- context [validJWT ?a] => destruct (validJWT a) eqn:?
  | |- context [ParseDuration ?a] => destruct (ParseDuration a) eqn:?
  | |- context [ParseInt ?a] => destruct (ParseInt a) eqn:?
  | |- context [GetAuthConfigs ?a ?b] => destruct (GetAuthConfigs a b) eqn:?
  end; cbv beta iota; cbn [isOk andb negb]).

(** [parsePredictKubeMetadata] succeeds exactly when the seven required
    keys pass their checks and the authentication settings can be read. *)
Theorem pk_parse_ok_iff_rules :
  forall config : ScalerConfig,
    isOk (parsePK config) =
    forallb (ruleHolds config) rules &&
    isOk (GetAuthConfigs (TriggerMetadata config) (AuthParams config)).
Proof.
  intros config. unfold parsePredictKubeMetadata, predictKubeRules.
  cbn [forallb]. unfold ruleHolds, ruleSource. cbn [fr_key fr_auth fr_ok].
  split_config config; reflexivity.
Qed.

Lemma pk_parse_fields (config : ScalerConfig) (m : predictKubeMetadata) (a : AuthMeta) :
  parsePK config = Ok (m, a) ->
  TriggerMetadata config !! "query" = Some (query m) /\
  TriggerMetadata config !! "prometheusAddress" = Some (prometheusAddress m) /\
  AuthParams config !! "apiKey" = Some (apiKey m) /\
  scalerIndex m = ScalerIndex config /\
  GetAuthConfigs (TriggerMetadata config) (AuthParams config) = Ok a.
Proof.
  unfold parsePredictKubeMetadata. split_config config; intros H; try discriminate H.
  injection H as <- <-. cbn. repeat split; reflexivity.
Qed.

(** [NewPredictKubeScaler] opens the Prometheus client before dialling
    the ML engine and dials only once the metric type, the metadata and
    the Prometheus client are all in hand; a scaler it returns holds the
    parsed metadata, whose query, address and API key are the raw
    configuration values. *)
Theorem pk_new_connection_order :
  forall config : ScalerConfig,
    (exists k, snd (NewPK config) = firstn k [EvPrometheusConn; EvGrpcDial]) /\
    (In EvGrpcDial (snd (NewPK config)) ->
       exists mt meta auth, GetMetricTargetType config = Ok mt /\
         parsePK config = Ok (meta, auth) /\ initPrometheusConn meta = Ok tt) /\
    (forall s, fst (NewPK config) = Ok s ->
       snd (NewPK config) = [EvPrometheusConn; EvGrpcDial] /\
       GetMetricTargetType config = Ok (pks_metricType _ _ s) /\
       parsePK config = Ok (pks_metadata _ _ s, pks_prometheusAuth _ _ s) /\
       TriggerMetadata config !! "query" = Some (query (pks_metadata _ _ s)) /\
       TriggerMetadata config !! "prometheusAddress" =
         Some (prometheusAddress (pks_metadata _ _ s)) /\
       AuthParams config !! "apiKey" = Some (apiKey (pks_metadata _ _ s)) /\
       scalerIndex (pks_metadata _ _ s) = ScalerIndex config).
Proof.
  intros config. unfold NewPredictKubeScaler.
  destruct (GetMetricTargetType config) as [mt|e] eqn:Hmt;
    [|split; [exists 0%nat; reflexivity|split; [intros []|intros s Hs; discriminate Hs]]].
  destruct (parsePK config) as [[meta auth]|e] eqn:Hp;
    [|split; [exists 0%nat; reflexivity|split; [intros []|intros s Hs; discriminate Hs]]].
  destruct (initPrometheusConn meta) as [[]|e] eqn:Hi.
  2: { split; [exists 1%nat; reflexivity|split; [intros [H|[]]; discriminate H|]].
       intros s Hs; discriminate Hs. }
  destruct (pk_parse_fields config meta auth Hp) as (Hq & Ha & Hk & Hs & _).
  destruct (setupClientConn meta) as [[]|e] eqn:Hc.
  - split; [exists 2%nat; reflexivity|split].
    + intros _. exists mt, meta, auth. auto.
    + intros s H. injection H as <-. cbn. repeat split; assumption.
  - split; [exists 2%nat; reflexivity|split].
    + intros _. exists mt, meta, auth. auto.
    + intros s H. discriminate H.
Qed.

End ExtraCtor.

Section ExtraGcs.
Variable gcpAuthorizationMetadata : Type.
Variable getGcpAuthorization : ScalerConfig -> result gcpAuthorizationMetadata.
Variable GenerateMetricNameWithIndex : Z -> string -> string.
Variable NormalizeString : string -> string.
Variable MetricTargetType : Type.
Variable GetMetricTargetType : ScalerConfig -> result MetricTargetType.
Variable NewClient : gcpAuthorizationMetadata -> result unit.

Local Abbreviation parseGcs := (parseGcsMetadata gcpAuthorizationMetadata
  getGcpAuthorization GenerateMetricNameWithIndex NormalizeString).
Local Abbreviation NewGcs := (NewGcsScaler gcpAuthorizationMetadata
  getGcpAuthorization GenerateMetricNameWithIndex NormalizeString MetricTargetType
  GetMetricTargetType NewClient).
Local Abbreviation meta := (gcsMetadata gcpAuthorizationMetadata).

Ltac split_gcs config :=
  repeat (match goal with
  | |- context [TriggerMetadata config !! ?k] => destruct (TriggerMetadata config !! k) eqn:?
  | |- context [String.eqb ?a ""] => destruct (String.eqb a "") eqn:?
  | |- context [ParseInt ?a] => destruct (ParseInt a) eqn:?
  | |- context [Atoi ?a] => destruct (Atoi a) eqn:?
  | |- context [getGcpAuthorization ?c] => destruct (getGcpAuthorization c) eqn:?
  end; cbv beta iota).

(** [parseGcsMetadata] keeps the non-empty bucket name, derives the metric
    name from the scaler index and the normalised "gcp-storage-<bucket>",
    and falls back to 100 target objects and a scan bound of 1000 for
    absent keys; present keys are the parsed integers. *)
Theorem gcs_parse_fields_defaults :
  forall (config : ScalerConfig) (m : meta),
    parseGcs config = Ok m ->
    TriggerMetadata config !! "bucketName" = Some (bucketName _ m) /\
    bucketName _ m <> "" /\
    metricName _ m = GenerateMetricNameWithIndex (ScalerIndex config)
                       (NormalizeString ("gcp-storage-" ++ bucketName _ m)) /\
    getGcpAuthorization config = Ok (gcpAuthorization _ m) /\
    match TriggerMetadata config !! "targetObjectCount" with
    | None => targetObjectCount _ m = 100%Z
    | Some v => ParseInt v = Ok (targetObjectCount _ m)
    end /\
    match TriggerMetadata config !! "maxBucketItemsToScan" with
    | None => maxBucketItemsToScan _ m = 1000%Z
    | Some v => Atoi v = Ok (maxBucketItemsToScan _ m)
    end.
Proof.
  intros config m. unfold parseGcsMetadata. split_gcs config; intros H; try discriminate H.
  all: injection H as <-; cbn; repeat split; try reflexivity; try assumption.
  all: intros Hb; apply String.eqb_eq in Hb; congruence.
Qed.

(** [NewGcsScaler] creates the storage client at most once, and only after
    the metric type and the metadata are in hand; a scaler it returns holds
    exactly the parsed metadata. *)
Theorem gcs_new_client_after_parse :
  forall config : ScalerConfig,
    (snd (NewGcs config) = [] \/ snd (NewGcs config) = [EvStorageClient]) /\
    (snd (NewGcs config) = [EvStorageClient] ->
       exists mt m, GetMetricTargetType config = Ok mt /\ parseGcs config = Ok m) /\
    (forall s, fst (NewGcs config) = Ok s ->
       GetMetricTargetType config = Ok (gs_metricType _ _ s) /\
       parseGcs config = Ok (gs_metadata _ _ s) /\
       NewClient (gcpAuthorization _ (gs_metadata _ _ s)) = Ok tt).
Proof.
  intros config. unfold NewGcsScaler.
  destruct (GetMetricTargetType config) as [mt|e] eqn:Hmt;
    [|split; [left; reflexivity|split; [intros H; discriminate H|intros s Hs; discriminate Hs]]].
  destruct (parseGcs config) as [m|e] eqn:Hp;
    [|split; [left; reflexivity|split; [intros H; discriminate H|intros s Hs; discriminate Hs]]].
  destruct (NewClient (gcpAuthorization _ m)) as [[]|e] eqn:Hc;
    (split; [right; reflexivity|split; [intros _; exists mt, m; auto|]]).
  - intros s H. injection H as <-. cbn. auto.
  - intros s H. discriminate H.
Qed.

End ExtraGcs.

Lemma countLoop_reads (it : ObjectIterator) :
  forall count maxCount,
  exists pre, it = (pre ++ snd (countLoop it count maxCount))%list /\
              (length pre <= Z.to_nat (maxCount - count))%nat.
Proof.
  induction it as [|r rest IH]; intros count maxCount; simpl.
  - exists []. destruct (count <? maxCount)%Z; simpl; split; [reflexivity|lia|reflexivity|lia].
  - destruct (Z.ltb_spec count maxCount) as [Hlt|Hge].
    + destruct r as [name| |e].
      * destruct (IH (count + 1)%Z maxCount) as [pre [Hp Hl]].
        exists (NItem name :: pre). simpl. split; [f_equal; exact Hp|lia].
      * exists [NDone]. simpl. split; [reflexivity|lia].
      * exists [NErr e]. destruct (Contains (Error e) bucketNotExist); simpl; split;
          [reflexivity|lia|reflexivity|lia].
    + exists []. simpl. split; [reflexivity|lia].
Qed.

(** [getItemCount] consumes at most [max(maxCount, 0)] answers of the
    object iterator: the listing is never read past the bound, so IsActive
    reads at most one answer and GetMetrics at most
    [maxBucketItemsToScan]. *)
Theorem getItemCount_reads_at_most_bound :
  forall (it : ObjectIterator) (maxCount : Z),
    exists pre, it = (pre ++ snd (getItemCount it maxCount))%list /\
                (length pre <= Z.to_nat maxCount)%nat.
Proof.
  intros it maxCount. rewrite getItemCount_loop.
  destruct (countLoop_reads it 0 maxCount) as [pre [Hp Hl]].
  exists pre. split; [exact Hp|]. rewrite Z.sub_0_r in Hl. exact Hl.
Qed.

(** GetMetrics on a bucket listing reports [min(#objects, bound)] for any
    non-negative bound, one metric under the requested name. *)
Lemma gcsGetMetrics_listing {Auth MT} (s : gcsScaler Auth MT) (names : list string)
    (n : string) (t : Z) :
  (0 <= maxBucketItemsToScan _ (gs_metadata _ _ s))%Z ->
  gcsGetMetrics s (bucketListing names) n t =
  ([{| emv_MetricName := n;
       emv_Value := Z.min (Z.of_nat (length names)) (maxBucketItemsToScan _ (gs_metadata _ _ s));
       emv_Timestamp := t |}], None).
Proof.
  intros H. unfold gcsGetMetrics. rewrite getItemCount_loop. unfold bucketListing.
  rewrite countLoop_listing by exact H. reflexivity.
Qed.

Section ExtraGcsScaler.
Variable gcpAuthorizationMetadata : Type.
Variable getGcpAuthorization : ScalerConfig -> result gcpAuthorizationMetadata.
Variable GenerateMetricNameWithIndex : Z -> string -> string.
Variable NormalizeString : string -> string.
Variable MetricTargetType : Type.
Variable GetMetricTargetType : ScalerConfig -> result MetricTargetType.
Variable NewClient : gcpAuthorizationMetadata -> result unit.

Local Abbreviation NewGcs := (NewGcsScaler gcpAuthorizationMetadata
  getGcpAuthorization GenerateMetricNameWithIndex NormalizeString MetricTargetType
  GetMetricTargetType NewClient).

Lemma gcs_new_metadata (config : ScalerConfig) s :
  fst (NewGcs config) = Ok s ->
  parseGcsMetadata gcpAuthorizationMetadata getGcpAuthorization GenerateMetricNameWithIndex
    NormalizeString config = Ok (gs_metadata _ _ s).
Proof.
  unfold NewGcsScaler.
  destruct (GetMetricTargetType config); [|discriminate].
  destruct (parseGcsMetadata _ _ _ _ config) as [m|e]; [|discriminate].
  destruct (NewClient (gcpAuthorization _ m)); [|discriminate].
  intros H. injection H as <-. reflexivity.
Qed.

(** A scaler built from a configuration without [maxBucketItemsToScan]
    reports [min(#objects, 1000)] on a bucket listing; with the key set to
    a non-negative integer [k] it reports [min(#objects, k)]. *)
Theorem gcs_new_getMetrics_scan_bound :
  forall (config : ScalerConfig) s (names : list string) (n : string) (t : Z),
    fst (NewGcs config) = Ok s ->
    (TriggerMetadata config !! "maxBucketItemsToScan" = None ->
       gcsGetMetrics s (bucketListing names) n t =
       ([{| emv_MetricName := n; emv_Value := Z.min (Z.of_nat (length names)) 1000;
            emv_Timestamp := t |}], None)) /\
    (forall v k, TriggerMetadata config !! "maxBucketItemsToScan" = Some v ->
       Atoi v = Ok k -> (0 <= k)%Z ->
       gcsGetMetrics s (bucketListing names) n t =
       ([{| emv_MetricName := n; emv_Value := Z.min (Z.of_nat (length names)) k;
            emv_Timestamp := t |}], None)).
Proof.
  intros config s names n t Hs.
  pose proof (gcs_new_metadata config s Hs) as Hp.
  unfold parseGcsMetadata in Hp.
  destruct (TriggerMetadata config !! "bucketName"); [|discriminate].
  destruct (String.eqb _ ""); [discriminate|].
  destruct (match TriggerMetadata config !! "targetObjectCount" with
            | Some v => _ | None => _ end); [|discriminate].
  split.
  - intros Hn. rewrite Hn in Hp.
    destruct (getGcpAuthorization config); [|discriminate].
    injection Hp as Hm. rewrite gcsGetMetrics_listing; rewrite <- Hm; cbn;
      unfold defaultMaxBucketItemsToScan; [reflexivity|lia].
  - intros v k Hv Ha Hk. rewrite Hv, Ha in Hp.
    destruct (getGcpAuthorization config); [|discriminate].
    injection Hp as Hm. rewrite gcsGetMetrics_listing; rewrite <- Hm; cbn;
      unfold defaultMaxBucketItemsToScan; [reflexivity|lia].
Qed.

End ExtraGcsScaler.

(** With a scan bound of at least one, a positive count reported by
    GetMetrics implies IsActive is [(true, nil)]. The converse fails: a
    "bucket doesn't exist" error met after some objects leaves IsActive
    true while GetMetrics reports 0; any other error met before the bound
    discards the partial count and GetMetrics returns no metric. *)
Theorem gcs_getMetrics_vs_isActive :
  forall Auth MT (s : gcsScaler Auth MT) (n : string) (t : Z),
    (1 <= maxBucketItemsToScan _ (gs_metadata _ _ s))%Z ->
    (forall it v, gcsGetMetrics s it n t =
                  ([{| emv_MetricName := n; emv_Value := v; emv_Timestamp := t |}], None) ->
                  (0 < v)%Z -> gcsIsActive s it = (true, None)) /\
    (forall names e rest,
       Contains (Error e) bucketNotExist = true -> names <> [] ->
       (Z.of_nat (length names) < maxBucketItemsToScan _ (gs_metadata _ _ s))%Z ->
       gcsIsActive s (bucketListing names ++ NErr e :: rest)%list = (true, None) /\
       gcsGetMetrics s (bucketListing names ++ NErr e :: rest)%list n t =
       ([{| emv_MetricName := n; emv_Value := 0; emv_Timestamp := t |}], None)) /\
    (forall names e rest,
       Contains (Error e) bucketNotExist = false ->
       (Z.of_nat (length names) < maxBucketItemsToScan _ (gs_metadata _ _ s))%Z ->
       gcsGetMetrics s (bucketListing names ++ NErr e :: rest)%list n t = ([], Some e)).
Proof.
  intros Auth MT s n t Hmax. split; [|split].
  - intros it v Hg Hv. unfold gcsGetMetrics in Hg. rewrite getItemCount_loop in Hg.
    unfold gcsIsActive. rewrite getItemCount_loop.
    destruct it as [|r rest]; simpl in Hg |- *.
    + destruct (Z.ltb_spec 0 (maxBucketItemsToScan _ (gs_metadata _ _ s))); [|lia].
      injection Hg as <-. lia.
    + destruct (Z.ltb_spec 0 (maxBucketItemsToScan _ (gs_metadata _ _ s))); [|lia].
      destruct r as [name| |e].
      * rewrite countLoop_stop by lia. reflexivity.
      * injection Hg as <-. lia.
      * destruct (Contains (Error e) bucketNotExist); [injection Hg as <-; lia|discriminate Hg].
  - intros names e rest He Hne Hlt. split.
    + destruct names as [|x xs]; [congruence|].
      unfold gcsIsActive. rewrite getItemCount_loop. simpl.
      rewrite countLoop_stop by lia. reflexivity.
    + unfold gcsGetMetrics. rewrite getItemCount_loop. unfold bucketListing.
      rewrite countLoop_error_after by lia. rewrite He. reflexivity.
  - intros names e rest He Hlt. unfold gcsGetMetrics. rewrite getItemCount_loop.
    unfold bucketListing. rewrite countLoop_error_after by lia. rewrite He. reflexivity.
Qed.

(** ** Witnesses of the further properties *)

Lemma getMetrics_errors_unmodified_witness :
  let envq := {| now := 0; QueryRange := fun _ _ => Err exTimeout;
                 GetPredictMetric := fun _ _ => Ok 7%Z; HealthCheck := (Some tt, None) |} in
  let envp := exEnv exVector (fun _ _ => Err exTimeout) (Some tt, None) in
  let m0 := exMeta (10 * minute) minute in
  doQuery Z exAdapt exParseFloat exName envq m0 = (m0, Err exTimeout) /\
  GetMetrics Z exAdapt exParseFloat exName envq m0 "m" = (m0, ([], Some exTimeout)) /\
  doQuery Z exAdapt exParseFloat exName envp m0 = (m0, Ok exItems) /\
  GetPredictMetric Z envp (forecastHorizon m0) exItems = Err exTimeout /\
  GetMetrics Z exAdapt exParseFloat exName envp m0 "m" = (m0, ([], Some exTimeout)).
Proof.
  intros envq envp m0.
  assert (h1 : doQuery Z exAdapt exParseFloat exName envq m0 = (m0, Err exTimeout))
    by reflexivity.
  assert (h2 : doQuery Z exAdapt exParseFloat exName envp m0 = (m0, Ok exItems))
    by reflexivity.
  assert (h3 : GetPredictMetric Z envp (forecastHorizon m0) exItems = Err exTimeout)
    by reflexivity.
  destruct (getMetrics_errors_unmodified Z exAdapt exParseFloat exName envq m0 m0 "m"
              exTimeout) as [Hq _].
  destruct (getMetrics_errors_unmodified Z exAdapt exParseFloat exName envp m0 m0 "m"
              exTimeout) as [_ Hp].
  split; [exact h1|]. split; [exact (proj1 (Hq h1))|].
  split; [exact h2|]. split; [exact h3|]. exact (Hp exItems h2 h3).
Defined.


Lemma isActive_query_error_or_empty_witness :
  let envq := {| now := 0; QueryRange := fun _ _ => Err exTimeout;
                 GetPredictMetric := fun _ _ => Ok 7%Z; HealthCheck := (Some tt, None) |} in
  let enve := exEnv (VVector []) (fun _ _ => Ok 7%Z) (Some tt, None) in
  let m0 := exMeta (10 * minute) minute in
  doQuery Z exAdapt exParseFloat exName envq m0 = (m0, Err exTimeout) /\
  IsActive Z exAdapt exParseFloat exName exCode envq m0 = (m0, (false, Some exTimeout)) /\
  doQuery Z exAdapt exParseFloat exName enve m0 = (m0, Ok []) /\
  fst (snd (IsActive Z exAdapt exParseFloat exName exCode enve m0)) = false.
Proof.
  intros envq enve m0.
  assert (h1 : doQuery Z exAdapt exParseFloat exName envq m0 = (m0, Err exTimeout))
    by reflexivity.
  assert (h2 : doQuery Z exAdapt exParseFloat exName enve m0 = (m0, Ok [])) by reflexivity.
  destruct (isActive_query_error_or_empty Z exAdapt exParseFloat exName exCode envq m0 m0)
    as [Hq _].
  destruct (isActive_query_error_or_empty Z exAdapt exParseFloat exName exCode enve m0 m0)
    as [_ He].
  split; [exact h1|]. split; [exact (Hq exTimeout h1)|]. split; [exact h2|exact (He h2)].
Defined.

Lemma active_implies_positive_metric_witness :
  let env := exEnv exVector (fun _ _ => Ok 7%Z) (Some tt, None) in
  let m0 := exMeta (10 * minute) minute in
  IsActive Z exAdapt exParseFloat exName exCode env m0 = (m0, (true, None)) /\
  doQuery Z exAdapt exParseFloat exName env m0 = (m0, Ok exItems) /\
  GetPredictMetric Z env (forecastHorizon m0) exItems = Ok 7%Z /\
  exists v, (0 < v)%Z /\
    GetMetrics Z exAdapt exParseFloat exName env m0 "m" =
    (m0, ([{| emv_MetricName := "m"; emv_Value := v; emv_Timestamp := now Z env |}], None)).
Proof.
  intros env m0.
  assert (h1 : IsActive Z exAdapt exParseFloat exName exCode env m0 = (m0, (true, None)))
    by reflexivity.
  assert (h2 : doQuery Z exAdapt exParseFloat exName env m0 = (m0, Ok exItems))
    by reflexivity.
  assert (h3 : GetPredictMetric Z env (forecastHorizon m0) exItems = Ok 7%Z) by reflexivity.
  split; [exact h1|]. split; [exact h2|]. split; [exact h3|].
  exact (active_implies_positive_metric Z exAdapt exParseFloat exName exCode env m0 m0
           exItems 7%Z "m" h1 h2 h3).
Defined.

Lemma parse_vector_normalises_witness :
  let res := [{| s_Timestamp := 1; s_Value := 5 # 1 |}; {| s_Timestamp := 2; s_Value := 9 # 1 |}] in
  Forall (fun s => exists p, exAdapt (s_Timestamp s) = Ok p) res /\
  exists out, parsePrometheusResult Z exAdapt exParseFloat exName (exMeta minute minute)
                (VVector res) = Ok out /\ length out = length res /\
    Forall2 (fun (s : Sample) (it : Item Z) =>
               exAdapt (s_Timestamp s) = Ok (it_Timestamp _ it) /\
               it_Value _ it = s_Value s /\ it_MetricName _ it = exName 0) res out.
Proof.
  intros res.
  assert (h : Forall (fun s => exists p, exAdapt (s_Timestamp s) = Ok p) res).
  { repeat constructor; eexists; reflexivity. }
  split; [exact h|].
  exact (parse_vector_normalises Z exAdapt exParseFloat exName (exMeta minute minute) res h).
Defined.

Lemma parse_first_conversion_error_witness :
  let e := ErrString "timestamp before 0001-01-01" in
  let ok1 := {| sp_Timestamp := 1; sp_Value := 5 # 1 |} in
  let bad := {| sp_Timestamp := -3; sp_Value := 1 # 1 |} in
  let streams := [{| ss_Metric := []; ss_Values := [ok1] |};
                  {| ss_Metric := []; ss_Values := [bad; {| sp_Timestamp := 4; sp_Value := 1 # 1 |}] |}] in
  concat (map ss_Values streams) = ([ok1] ++ bad :: [{| sp_Timestamp := 4; sp_Value := 1 # 1 |}])%list /\
  exAdaptNonNeg (sp_Timestamp bad) = Err e /\
  parsePrometheusResult Z exAdaptNonNeg exParseFloat exName (exMeta minute minute)
    (VVector ([{| s_Timestamp := 1; s_Value := 5 # 1 |}] ++
              [{| s_Timestamp := -1; s_Value := 2 # 1 |}])) = Err e /\
  parsePrometheusResult Z exAdaptNonNeg exParseFloat exName (exMeta minute minute)
    (VMatrix streams) = Err e.
Proof.
  intros e ok1 bad streams.
  assert (hc : concat (map ss_Values streams) =
               ([ok1] ++ bad :: [{| sp_Timestamp := 4; sp_Value := 1 # 1 |}])%list)
    by reflexivity.
  assert (hb : exAdaptNonNeg (sp_Timestamp bad) = Err e) by reflexivity.
  assert (hp : Forall (fun s => exists p, exAdaptNonNeg (sp_Timestamp s) = Ok p) [ok1]).
  { repeat constructor. eexists. reflexivity. }
  assert (hv : Forall (fun s => exists p, exAdaptNonNeg (s_Timestamp s) = Ok p)
                 [{| s_Timestamp := 1; s_Value := 5 # 1 |}]).
  { repeat constructor. eexists. reflexivity. }
  assert (hs : exAdaptNonNeg (s_Timestamp {| s_Timestamp := -1; s_Value := 2 # 1 |}) = Err e)
    by reflexivity.
  destruct (parse_first_conversion_error Z exAdaptNonNeg exParseFloat exName
              (exMeta minute minute) e) as [Hv Hm].
  split; [exact hc|]. split; [exact hb|].
  split; [exact (Hv _ _ [] hv hs)|exact (Hm streams [ok1] bad _ hc hp hb)].
Defined.

Lemma pk_new_connection_order_witness :
  exists s, fst (exNewPK exFullConfig) = Ok s /\
    snd (exNewPK exFullConfig) = [EvPrometheusConn; EvGrpcDial] /\
    exGetMetricTargetType exFullConfig = Ok (pks_metricType _ _ s) /\
    exParsePK exFullConfig = Ok (pks_metadata _ _ s, pks_prometheusAuth _ _ s) /\
    TriggerMetadata exFullConfig !! "query" = Some (query (pks_metadata _ _ s)) /\
    TriggerMetadata exFullConfig !! "prometheusAddress" =
      Some (prometheusAddress (pks_metadata _ _ s)) /\
    AuthParams exFullConfig !! "apiKey" = Some (apiKey (pks_metadata _ _ s)) /\
    scalerIndex (pks_metadata _ _ s) = ScalerIndex exFullConfig.
Proof.
  destruct (fst (exNewPK exFullConfig)) as [s|e] eqn:Hs.
  - exists s. split; [reflexivity|].
    exact (proj2 (proj2 (pk_new_connection_order exValidURL exValidJWT exParseDuration unit
             exGetAuthConfigs unit exGetMetricTargetType exConn exConn exFullConfig)) s Hs).
  - vm_compute in Hs. discriminate Hs.
Defined.

Lemma gcs_parse_fields_defaults_witness :
  exists m, exParseGcs exGcsConfig = Ok m /\
    TriggerMetadata exGcsConfig !! "bucketName" = Some (bucketName _ m) /\
    bucketName _ m <> "" /\
    metricName _ m = exGenerateName (ScalerIndex exGcsConfig)
                       (exNormalize ("gcp-storage-" ++ bucketName _ m)) /\
    exGcpAuth exGcsConfig = Ok (gcpAuthorization _ m) /\
    match TriggerMetadata exGcsConfig !! "targetObjectCount" with
    | None => targetObjectCount _ m = 100%Z
    | Some v => ParseInt v = Ok (targetObjectCount _ m)
    end /\
    match TriggerMetadata exGcsConfig !! "maxBucketItemsToScan" with
    | None => maxBucketItemsToScan _ m = 1000%Z
    | Some v => Atoi v = Ok (maxBucketItemsToScan _ m)
    end.
Proof.
  destruct (exParseGcs exGcsConfig) as [m|e] eqn:Hm.
  - exists m. split; [reflexivity|].
    exact (gcs_parse_fields_defaults unit exGcpAuth exGenerateName exNormalize exGcsConfig m Hm).
  - vm_compute in Hm. discriminate Hm.
Defined.

Lemma gcs_new_client_after_parse_witness :
  exists s, fst (exNewGcs exGcsConfig) = Ok s /\
    snd (exNewGcs exGcsConfig) = [EvStorageClient] /\
    exGetMetricTargetType exGcsConfig = Ok (gs_metricType _ _ s) /\
    exParseGcs exGcsConfig = Ok (gs_metadata _ _ s) /\
    exNewClient (gcpAuthorization _ (gs_metadata _ _ s)) = Ok tt.
Proof.
  destruct (fst (exNewGcs exGcsConfig)) as [s|e] eqn:Hs.
  - exists s. split; [reflexivity|].
    pose proof (gcs_new_client_after_parse unit exGcpAuth exGenerateName exNormalize unit
                  exGetMetricTargetType exNewClient exGcsConfig) as [_ [_ H]].
    split; [vm_compute; reflexivity|exact (H s Hs)].
  - vm_compute in Hs. discriminate Hs.
Defined.

Lemma gcs_new_getMetrics_scan_bound_witness :
  let cfg := exConfig [("bucketName", "b")] [] in
  TriggerMetadata cfg !! "maxBucketItemsToScan" = None /\
  TriggerMetadata (exScanConfig "3") !! "maxBucketItemsToScan" = Some "3" /\
  Atoi "3" = Ok 3%Z /\
  exists s s3, fst (exNewGcs cfg) = Ok s /\ fst (exNewGcs (exScanConfig "3")) = Ok s3 /\
    gcsGetMetrics s (bucketListing exTen) "m" 0 =
      ([{| emv_MetricName := "m"; emv_Value := Z.min 10 1000; emv_Timestamp := 0 |}], None) /\
    gcsGetMetrics s3 (bucketListing exTen) "m" 0 =
      ([{| emv_MetricName := "m"; emv_Value := Z.min 10 3; emv_Timestamp := 0 |}], None).
Proof.
  intros cfg.
  assert (hn : TriggerMetadata cfg !! "maxBucketItemsToScan" = None) by reflexivity.
  assert (hv : TriggerMetadata (exScanConfig "3") !! "maxBucketItemsToScan" = Some "3")
    by reflexivity.
  assert (ha : Atoi "3" = Ok 3%Z) by reflexivity.
  split; [exact hn|]. split; [exact hv|]. split; [exact ha|].
  destruct (fst (exNewGcs cfg)) as [s|e] eqn:Hs; [|vm_compute in Hs; discriminate Hs].
  destruct (fst (exNewGcs (exScanConfig "3"))) as [s3|e] eqn:Hs3;
    [|vm_compute in Hs3; discriminate Hs3].
  exists s, s3. split; [reflexivity|]. split; [reflexivity|]. split.
  - exact (proj1 (gcs_new_getMetrics_scan_bound unit exGcpAuth exGenerateName exNormalize unit
             exGetMetricTargetType exNewClient cfg s exTen "m" 0 Hs) hn).
  - exact (proj2 (gcs_new_getMetrics_scan_bound unit exGcpAuth exGenerateName exNormalize unit
             exGetMetricTargetType exNewClient (exScanConfig "3") s3 exTen "m" 0 Hs3)
             "3" 3%Z hv ha ltac:(lia)).
Defined.

Lemma gcs_getMetrics_vs_isActive_witness :
  (1 <= maxBucketItemsToScan _ (gs_metadata _ _ (exGcs 1000)))%Z /\
  gcsGetMetrics (exGcs 1000) (bucketListing exTen) "m" 0 =
    ([{| emv_MetricName := "m"; emv_Value := 10; emv_Timestamp := 0 |}], None) /\
  gcsIsActive (exGcs 1000) (bucketListing exTen) = (true, None) /\
  Contains (Error exNotExist) bucketNotExist = true /\
  gcsIsActive (exGcs 1000) (bucketListing ["a"] ++ NErr exNotExist :: [])%list = (true, None) /\
  gcsGetMetrics (exGcs 1000) (bucketListing ["a"] ++ NErr exNotExist :: [])%list "m" 0 =
    ([{| emv_MetricName := "m"; emv_Value := 0; emv_Timestamp := 0 |}], None) /\
  Contains (Error exTimeout) bucketNotExist = false /\
  gcsGetMetrics (exGcs 1000) (bucketListing ["a"] ++ NErr exTimeout :: [])%list "m" 0 =
    ([], Some exTimeout).
Proof.
  assert (h1 : (1 <= maxBucketItemsToScan _ (gs_metadata _ _ (exGcs 1000)))%Z)
    by (cbn; lia).
  assert (hg : gcsGetMetrics (exGcs 1000) (bucketListing exTen) "m" 0 =
    ([{| emv_MetricName := "m"; emv_Value := 10; emv_Timestamp := 0 |}], None))
    by reflexivity.
  assert (hc : Contains (Error exNotExist) bucketNotExist = true) by reflexivity.
  assert (ht : Contains (Error exTimeout) bucketNotExist = false) by reflexivity.
  assert (hne : ["a"] <> []) by discriminate.
  assert (hl : (Z.of_nat (length ["a"]) < maxBucketItemsToScan _ (gs_metadata _ _ (exGcs 1000)))%Z)
    by (cbn; lia).
  destruct (gcs_getMetrics_vs_isActive unit unit (exGcs 1000) "m" 0 h1) as [P1 [P2 P3]].
  split; [exact h1|]. split; [exact hg|].
  split; [exact (P1 _ 10%Z hg ltac:(lia))|].
  split; [exact hc|]. split; [exact (proj1 (P2 ["a"] exNotExist [] hc hne hl))|].
  split; [exact (proj2 (P2 ["a"] exNotExist [] hc hne hl))|].
  split; [exact ht|exact (P3 ["a"] exTimeout [] ht hl)].
Defined.

